(** * Orbital and rotational kinematics of the solar-system scene

    A shallow embedding of the [CelestialBody] and [SolarSystemScene] classes
    of [src/script.js] and of their near-duplicate in [src/unnamed/part_001],
    together with the [PLANETARY_DATA] catalog.

    Number model.  A JavaScript number is an IEEE-754 double.  Here a finite
    double is idealised to the real number it stands for (no rounding, no
    overflow, a single zero), while the special values [NaN] and
    [+Infinity]/[-Infinity] are kept, because the truthiness tests of the
    source ([if (semiMajorAxis)], [rotationPeriod ? .. : 0]) and its divisions
    by a possibly zero [orbitalPeriod] depend on them.  A property that is
    absent from an object reads as [undefined], modelled by [None], and
    converts to [NaN] when used in arithmetic.

    A statement that names the very expression the source evaluates holds of
    the doubles as it holds here.  A statement that uses a law of the reals
    (associativity, a full turn of exactly 2π, the absence of overflow) holds
    in exact arithmetic only and says so.

    Rendering objects (geometries, materials, textures, the scene graph) carry
    no kinematic state and are left out; what remains of a body is the part
    of [this] that [update] reads and writes. *)

From Stdlib Require Import Reals Lra List Bool Arith.
From stdpp Require Import base gmap strings.

Local Open Scope R_scope.

(** ** Numbers *)

Inductive number : Type :=
| NaN
| Infinity (negative : bool)
| Finite (r : R).

(** A value read from an object property: [None] is [undefined]. *)
Definition value : Type := option number.

Definition Rzero (r : R) : bool := if Req_dec_T r 0 then true else false.
Definition Rneg (r : R) : bool := if Rlt_dec r 0 then true else false.

Definition add (a b : number) : number :=
  match a, b with
  | NaN, _ | _, NaN => NaN
  | Infinity s, Infinity s' => if Bool.eqb s s' then Infinity s else NaN
  | Infinity s, Finite _ | Finite _, Infinity s => Infinity s
  | Finite p, Finite q => Finite (p + q)
  end.

Definition sub (a b : number) : number :=
  match a, b with
  | NaN, _ | _, NaN => NaN
  | Infinity s, Infinity s' => if Bool.eqb s s' then NaN else Infinity s
  | Infinity s, Finite _ => Infinity s
  | Finite _, Infinity s => Infinity (negb s)
  | Finite p, Finite q => Finite (p - q)
  end.

Definition mul (a b : number) : number :=
  match a, b with
  | NaN, _ | _, NaN => NaN
  | Infinity s, Infinity s' => Infinity (xorb s s')
  | Infinity s, Finite r | Finite r, Infinity s =>
      if Rzero r then NaN else Infinity (xorb s (Rneg r))
  | Finite p, Finite q => Finite (p * q)
  end.

Definition div (a b : number) : number :=
  match a, b with
  | NaN, _ | _, NaN => NaN
  | Infinity _, Infinity _ => NaN
  | Infinity s, Finite r => Infinity (xorb s (Rneg r))
  | Finite _, Infinity _ => Finite 0
  | Finite p, Finite q =>
      if Rzero q
      then (if Rzero p then NaN else Infinity (Rneg p))
      else Finite (p / q)
  end.

Declare Scope js_scope.
Delimit Scope js_scope with js.
Bind Scope js_scope with number.
Infix "+" := add : js_scope.
Infix "-" := sub : js_scope.
Infix "*" := mul : js_scope.
Infix "/" := div : js_scope.

(** [Math.PI], idealised to π like every finite number, and [Math.cos],
    [Math.sin]: not a number outside the finite range. *)
Definition Math_PI : number := Finite PI.

Definition Math_cos (a : number) : number :=
  match a with Finite r => Finite (cos r) | _ => NaN end.

Definition Math_sin (a : number) : number :=
  match a with Finite r => Finite (sin r) | _ => NaN end.

(** The conversions the language applies implicitly. *)
Definition ToNumber (v : value) : number :=
  match v with Some a => a | None => NaN end.

Definition ToBoolean (v : value) : bool :=
  match v with
  | None | Some NaN => false
  | Some (Infinity _) => true
  | Some (Finite r) => negb (Rzero r)
  end.

(** An integer loop counter used as a number. *)
Definition of_nat (i : nat) : number := Finite (INR i).

(** How the evaluation of an expression ends: with a value, or by throwing.
    The error kinds are the ones the specification names; the source contains
    no [throw] statement. *)
Inductive Error : Type := ConfigurationError | NotFoundError.

Inductive completion (A : Type) : Type :=
| Normal (a : A)
| Throw (e : Error).
Arguments Normal {A} a.
Arguments Throw {A} e.

(** [for (let i = start; ...; i++) body], run for [count] iterations. *)
Fixpoint for_loop {S : Type} (count i : nat) (body : nat -> S -> S) (s : S) : S :=
  match count with
  | O => s
  | Datatypes.S count' => for_loop count' (Datatypes.S i) body (body i s)
  end.

(** ** [THREE.Vector3] *)

Module Vector3.
Record t : Type := new { x : number; y : number; z : number }.
End Vector3.

(** A fresh [THREE.Object3D] sits at the origin. *)
Definition origin : Vector3.t := Vector3.new (Finite 0) (Finite 0) (Finite 0).

(** ** The object handed to the [CelestialBody] constructor

    The constructor destructures [radius], [textureMap], [rotationPeriod],
    [axialTilt], [semiMajorAxis], [eccentricity], [orbitalPeriod], [position],
    [scale] and (in part_001) [isSun].  [textureMap] and [scale] do not reach
    the kinematics; [position] is destructured and then never read, and is
    kept here to make that visible. *)

Module Config.
Record t : Type := new {
  radius : value;
  rotationPeriod : value;
  axialTilt : value;
  semiMajorAxis : value;
  eccentricity : value;
  orbitalPeriod : value;
  position : option Vector3.t;
  isSun : bool
}.

(** The same object with the property [semiMajorAxis] left out. *)
Definition without_semiMajorAxis (cfg : t) : t :=
  new (radius cfg) (rotationPeriod cfg) (axialTilt cfg) None
      (eccentricity cfg) (orbitalPeriod cfg) (position cfg) (isSun cfg).

(** [{...cfg, isSun: true}]. *)
Definition with_isSun (cfg : t) : t :=
  new (radius cfg) (rotationPeriod cfg) (axialTilt cfg) (semiMajorAxis cfg)
      (eccentricity cfg) (orbitalPeriod cfg) (position cfg) true.

(** The properties that reach the motion of a body. *)
Definition kinematics (cfg : t) : value * value * value * value * value :=
  (rotationPeriod cfg, axialTilt cfg, semiMajorAxis cfg, eccentricity cfg,
   orbitalPeriod cfg).
End Config.

(** ** [src/script.js] *)

Module Script.

Definition SCALE_FACTOR : number := (Finite 1 / Finite 100000)%js.

Definition planet (a e P rot tilt km : R) : Config.t :=
  Config.new (Some (Finite km * SCALE_FACTOR)%js) (Some (Finite rot))
             (Some (Finite tilt)) (Some (Finite a)) (Some (Finite e))
             (Some (Finite P)) None false.

Definition SUN : Config.t :=
  Config.new (Some (Finite 6963 * SCALE_FACTOR)%js) (Some (Finite 27))
             (Some (Finite 7.25)) None None None (Some origin) false.
Definition MERCURY := planet 0.387 0.206 88 58.6 0.034 2439.7.
Definition VENUS := planet 0.723 0.007 224.7 (-243) 177.4 6051.8.
Definition EARTH := planet 1 0.017 365.25 1 23.44 6371.
Definition MARS := planet 1.524 0.093 687 1.03 25.19 3389.5.
Definition JUPITER := planet 5.203 0.048 4333 0.41 3.13 69911.
Definition SATURN := planet 9.537 0.054 10759 0.44 26.73 58232.
Definition URANUS := planet 19.191 0.047 30687 (-0.72) 97.77 25362.
Definition NEPTUNE := planet 30.069 0.009 60190 0.67 28.32 24622.

Definition PLANETARY_DATA : gmap string Config.t :=
  <[ "SUN"%string := SUN ]> (
  <[ "MERCURY"%string := MERCURY ]> (
  <[ "VENUS"%string := VENUS ]> (
  <[ "EARTH"%string := EARTH ]> (
  <[ "MARS"%string := MARS ]> (
  <[ "JUPITER"%string := JUPITER ]> (
  <[ "SATURN"%string := SATURN ]> (
  <[ "URANUS"%string := URANUS ]> (
  <[ "NEPTUNE"%string := NEPTUNE ]> ∅)))))))).

(** The own property [name] of the object [PLANETARY_DATA], the first step
    of a member access: [None] when the table has no such entry; nothing is
    thrown. *)
Definition lookup (name : string) : completion (option Config.t) :=
  Normal (PLANETARY_DATA !! name).

(** What a member access on the table evaluates to: an entry of the table,
    a member inherited from [Object.prototype], or [undefined]. *)
Inductive member : Type :=
| Own (cfg : Config.t)
| Inherited (name : string)
| Undefined.

(** The property names of the standard [Object.prototype], the prototype of
    an object literal. *)
Definition Object_prototype : list string :=
  ["constructor"; "__defineGetter__"; "__defineSetter__"; "hasOwnProperty";
   "__lookupGetter__"; "__lookupSetter__"; "isPrototypeOf";
   "propertyIsEnumerable"; "toString"; "valueOf"; "__proto__";
   "toLocaleString"]%string.

(** The member access [PLANETARY_DATA.NAME] (or [PLANETARY_DATA[name]]): the
    own property when there is one, else the member found along the prototype
    chain, else [undefined]. *)
Definition get (name : string) : completion member :=
  match lookup name with
  | Normal (Some cfg) => Normal (Own cfg)
  | Normal None =>
      if bool_decide (name ∈ Object_prototype)
      then Normal (Inherited name)
      else Normal Undefined
  | Throw e => Throw e
  end.

Record CelestialBody : Type := mkBody {
  orbitalPeriod : value;
  semiMajorAxis : value;
  eccentricity : value;
  currentTime : number;
  rotationSpeed : number;
  rotation_y : number;            (* this.mesh.rotation.y *)
  position : Vector3.t;           (* this.orbitHolder.position *)
  orbitLine : option (list Vector3.t)
}.

Definition segments : nat := 128.

Definition orbitPoint (this : CelestialBody) (i : nat) : Vector3.t :=
  let theta := (of_nat i / of_nat segments * Math_PI * Finite 2)%js in
  let x := (ToNumber (semiMajorAxis this) * Math_cos theta)%js in
  let z := (ToNumber (semiMajorAxis this) * Math_sin theta
            * (Finite 1 - ToNumber (eccentricity this)))%js in
  Vector3.new x (Finite 0) z.

Definition setupOrbit (this : CelestialBody) : CelestialBody :=
  let orbitPoints :=
    for_loop (segments + 1) 0
             (fun i pts => pts ++ [orbitPoint this i]) [] in
  mkBody (orbitalPeriod this) (semiMajorAxis this) (eccentricity this)
         (currentTime this) (rotationSpeed this) (rotation_y this)
         (position this) (Some orbitPoints).

Definition constructor (cfg : Config.t) : CelestialBody :=
  let rotationPeriod := Config.rotationPeriod cfg in
  let this :=
    mkBody (Config.orbitalPeriod cfg) (Config.semiMajorAxis cfg)
           (Config.eccentricity cfg) (Finite 0)
           (if ToBoolean rotationPeriod
            then (Finite 2 * Math_PI
                  / (ToNumber rotationPeriod * Finite 24 * Finite 60
                     * Finite 60 * Finite 60))%js
            else Finite 0)
           (Finite 0) origin None in
  if ToBoolean (Config.semiMajorAxis cfg) then setupOrbit this else this.

(** [new CelestialBody(cfg)] as an expression. *)
Definition new_CelestialBody (cfg : Config.t) : completion CelestialBody :=
  Normal (constructor cfg).

Definition update (this : CelestialBody) (deltaTime : number) : CelestialBody :=
  let currentTime' := (currentTime this + deltaTime)%js in
  let position' :=
    if ToBoolean (semiMajorAxis this) then
      let orbitalProgress :=
        (currentTime' / ToNumber (orbitalPeriod this) * Math_PI * Finite 2)%js in
      let x := (ToNumber (semiMajorAxis this) * Math_cos orbitalProgress)%js in
      let z := (ToNumber (semiMajorAxis this) * Math_sin orbitalProgress
                * (Finite 1 - ToNumber (eccentricity this)))%js in
      Vector3.new x (Finite 0) z
    else position this in
  mkBody (orbitalPeriod this) (semiMajorAxis this) (eccentricity this)
         currentTime' (rotationSpeed this)
         (rotation_y this + rotationSpeed this)%js
         position' (orbitLine this).

(** [SolarSystemScene]: the bodies in insertion order and the time scale. *)
Record SolarSystemScene : Type := mkScene {
  celestialBodies : list CelestialBody;
  timeScale : number
}.

Definition new_SolarSystemScene : SolarSystemScene := mkScene [] (Finite 1).

Definition addCelestialBody (scene : SolarSystemScene) (bodyConfig : Config.t)
  : SolarSystemScene :=
  mkScene (celestialBodies scene ++ [constructor bodyConfig]) (timeScale scene).

(** One frame of [animate]; [getDelta] is what [this.clock.getDelta()]
    returned for it. *)
Definition animate (scene : SolarSystemScene) (getDelta : number) : SolarSystemScene :=
  let deltaTime := (getDelta * timeScale scene)%js in
  mkScene (map (fun body => update body deltaTime) (celestialBodies scene))
          (timeScale scene).

(** A body after a sequence of calls of [update]. *)
Definition updates (this : CelestialBody) (deltaTimes : list number) : CelestialBody :=
  fold_left update deltaTimes this.

(** The scene after the frames whose clock deltas are [getDeltas], in order. *)
Definition frames (scene : SolarSystemScene) (getDeltas : list number)
  : SolarSystemScene :=
  fold_left animate getDeltas scene.

(** The top level of the script: a new scene to which the sun and the eight
    planets are added, one call of [addCelestialBody] after the other. *)
Definition solarSystem : SolarSystemScene :=
  fold_left addCelestialBody
            [SUN; MERCURY; VENUS; EARTH; MARS; JUPITER; SATURN; URANUS; NEPTUNE]
            new_SolarSystemScene.

End Script.

(** ** [src/unnamed/part_001]

    The same class with a shader material for the sun.  Of the material only
    the [time] uniforms matter to [update]: [material_time] is
    [this.material.uniforms.time.value], present when the material is a
    [ShaderMaterial], and [glow_time] is the same uniform of [this.glow]. *)

Module Part001.

Record CelestialBody : Type := mkBody {
  orbitalPeriod : value;
  semiMajorAxis : value;
  eccentricity : value;
  currentTime : number;
  rotationSpeed : number;
  rotation_y : number;
  position : Vector3.t;
  orbitLine : option (list Vector3.t);
  material_time : option number;
  glow_time : option number
}.

Definition segments : nat := 128.

Definition orbitPoint (this : CelestialBody) (i : nat) : Vector3.t :=
  let theta := (of_nat i / of_nat segments * Math_PI * Finite 2)%js in
  let x := (ToNumber (semiMajorAxis this) * Math_cos theta)%js in
  let z := (ToNumber (semiMajorAxis this) * Math_sin theta
            * (Finite 1 - ToNumber (eccentricity this)))%js in
  Vector3.new x (Finite 0) z.

Definition setupOrbit (this : CelestialBody) : CelestialBody :=
  let orbitPoints :=
    for_loop (segments + 1) 0
             (fun i pts => pts ++ [orbitPoint this i]) [] in
  mkBody (orbitalPeriod this) (semiMajorAxis this) (eccentricity this)
         (currentTime this) (rotationSpeed this) (rotation_y this)
         (position this) (Some orbitPoints)
         (material_time this) (glow_time this).

Definition constructor (cfg : Config.t) : CelestialBody :=
  let rotationPeriod := Config.rotationPeriod cfg in
  let uniform := if Config.isSun cfg then Some (Finite 0) else None in
  let this :=
    mkBody (Config.orbitalPeriod cfg) (Config.semiMajorAxis cfg)
           (Config.eccentricity cfg) (Finite 0)
           (if ToBoolean rotationPeriod
            then (Finite 2 * Math_PI
                  / (ToNumber rotationPeriod * Finite 24 * Finite 60
                     * Finite 60 * Finite 60))%js
            else Finite 0)
           (Finite 0) origin None uniform uniform in
  if ToBoolean (Config.semiMajorAxis cfg) then setupOrbit this else this.

Definition update (this : CelestialBody) (deltaTime : number) : CelestialBody :=
  let currentTime' := (currentTime this + deltaTime * Finite 20)%js in
  let material_time' :=
    match material_time this with
    | Some _ => Some (currentTime' / Finite 10)%js
    | None => None
    end in
  let glow_time' :=
    match glow_time this with
    | Some _ => Some (currentTime' / Finite 20)%js
    | None => None
    end in
  let position' :=
    if ToBoolean (semiMajorAxis this) then
      let orbitalProgress :=
        (currentTime' / ToNumber (orbitalPeriod this) * Math_PI * Finite 2)%js in
      let x := (ToNumber (semiMajorAxis this) * Math_cos orbitalProgress)%js in
      let z := (ToNumber (semiMajorAxis this) * Math_sin orbitalProgress
                * (Finite 1 - ToNumber (eccentricity this)))%js in
      Vector3.new x (Finite 0) z
    else position this in
  mkBody (orbitalPeriod this) (semiMajorAxis this) (eccentricity this)
         currentTime' (rotationSpeed this)
         (rotation_y this + rotationSpeed this)%js
         position' (orbitLine this) material_time' glow_time'.

Record SolarSystemScene : Type := mkScene {
  celestialBodies : list CelestialBody;
  timeScale : number
}.

Definition new_SolarSystemScene : SolarSystemScene := mkScene [] (Finite 1).

Definition addCelestialBody (scene : SolarSystemScene) (bodyConfig : Config.t)
  : SolarSystemScene :=
  mkScene (celestialBodies scene ++ [constructor bodyConfig]) (timeScale scene).

Definition animate (scene : SolarSystemScene) (getDelta : number) : SolarSystemScene :=
  let deltaTime := (getDelta * timeScale scene)%js in
  mkScene (map (fun body => update body deltaTime) (celestialBodies scene))
          (timeScale scene).

Definition updates (this : CelestialBody) (deltaTimes : list number) : CelestialBody :=
  fold_left update deltaTimes this.

Definition frames (scene : SolarSystemScene) (getDeltas : list number)
  : SolarSystemScene :=
  fold_left animate getDeltas scene.

Definition SUN_SCALE_FACTOR : number := (Finite 1 / Finite 3000000)%js.
Definition SCALE_FACTOR : number := (Finite 1 / Finite 100000)%js.
Definition ORBIT_SCALE_FACTOR : number := Finite 1.

Definition planet (a e P rot tilt km : R) : Config.t :=
  Config.new (Some (Finite km * SCALE_FACTOR)%js) (Some (Finite rot))
             (Some (Finite tilt)) (Some (Finite a * ORBIT_SCALE_FACTOR)%js)
             (Some (Finite e)) (Some (Finite P)) None false.

Definition SUN : Config.t :=
  Config.new (Some (Finite 696340 * SUN_SCALE_FACTOR)%js) (Some (Finite 27))
             (Some (Finite 7.25)) None None None (Some origin) false.
Definition MERCURY := planet 0.387 0.206 88 58.6 0.034 2439.7.
Definition VENUS := planet 0.723 0.007 224.7 (-243) 177.4 6051.8.
Definition EARTH := planet 1 0.017 365.25 1 23.44 6371.
Definition MARS := planet 1.524 0.093 687 1.03 25.19 3389.5.
Definition JUPITER := planet 5.203 0.048 4333 0.41 3.13 69911.
Definition SATURN := planet 9.537 0.054 10759 0.44 26.73 58232.
Definition URANUS := planet 19.191 0.047 30687 (-0.72) 97.77 25362.
Definition NEPTUNE := planet 30.069 0.009 60190 0.67 28.32 24622.

Definition PLANETARY_DATA : gmap string Config.t :=
  <[ "SUN"%string := SUN ]> (
  <[ "MERCURY"%string := MERCURY ]> (
  <[ "VENUS"%string := VENUS ]> (
  <[ "EARTH"%string := EARTH ]> (
  <[ "MARS"%string := MARS ]> (
  <[ "JUPITER"%string := JUPITER ]> (
  <[ "SATURN"%string := SATURN ]> (
  <[ "URANUS"%string := URANUS ]> (
  <[ "NEPTUNE"%string := NEPTUNE ]> ∅)))))))).

(** The top level: the sun is added with [isSun: true]. *)
Definition solarSystem : SolarSystemScene :=
  fold_left addCelestialBody
            [Config.with_isSun SUN; MERCURY; VENUS; EARTH; MARS; JUPITER; SATURN;
             URANUS; NEPTUNE]
            new_SolarSystemScene.

End Part001.

(** ** [src/unnamed/part_000]

    The single-planet page: four meshes over one geometry, turned by a fixed
    angle in every frame.  The state is the [rotation.y] of each mesh. *)

Module Part000.

Record Meshes : Type := mkMeshes {
  earthMesh : number;
  lightsMesh : number;
  cloundsMesh : number;
  glowMesh : number
}.

(** Fresh meshes are not rotated. *)
Definition start : Meshes := mkMeshes (Finite 0) (Finite 0) (Finite 0) (Finite 0).

(** One frame of [animate]. *)
Definition animate (m : Meshes) : Meshes :=
  mkMeshes (earthMesh m + Finite 0.01)%js (lightsMesh m + Finite 0.01)%js
           (cloundsMesh m + Finite 0.012)%js (glowMesh m + Finite 0.01)%js.

Fixpoint frames (n : nat) (m : Meshes) : Meshes :=
  match n with
  | O => m
  | S n' => frames n' (animate m)
  end.

End Part000.

(** ** Vocabulary of the statements *)

(** A time step that does not run backwards. *)
Definition nonnegative (a : number) : Prop :=
  match a with
  | NaN => False
  | Infinity negative => negative = false
  | Finite r => 0 <= r
  end.

(** A configuration with a semiMajorAxis of 1 and an orbitalPeriod of 0. *)
Definition zeroPeriodConfig : Config.t :=
  Config.new (Some (Finite 1)) (Some (Finite 1)) (Some (Finite 0))
             (Some (Finite 1)) (Some (Finite 0)) (Some (Finite 0)) None false.

(** The two variants of the class hold the same kinematic state. *)
Definition agree (b1 : Script.CelestialBody) (b2 : Part001.CelestialBody) : Prop :=
  Script.orbitalPeriod b1 = Part001.orbitalPeriod b2
  /\ Script.semiMajorAxis b1 = Part001.semiMajorAxis b2
  /\ Script.eccentricity b1 = Part001.eccentricity b2
  /\ Script.currentTime b1 = Part001.currentTime b2
  /\ Script.rotationSpeed b1 = Part001.rotationSpeed b2
  /\ Script.rotation_y b1 = Part001.rotation_y b2
  /\ Script.position b1 = Part001.position b2
  /\ Script.orbitLine b1 = Part001.orbitLine b2.

(** The sum of a list of finite time steps. *)
Definition Rsum (ds : list R) : R := fold_right Rplus 0 ds.

Definition is_finite (a : number) : Prop :=
  match a with Finite _ => True | _ => False end.

Definition finite_vector (v : Vector3.t) : Prop :=
  is_finite (Vector3.x v) /\ is_finite (Vector3.y v) /\ is_finite (Vector3.z v).

(** The configuration has no semiMajorAxis, or finite semiMajorAxis,
    eccentricity and orbitalPeriod with an orbitalPeriod that is not zero. *)
Definition orbit_defined (cfg : Config.t) : Prop :=
  Config.semiMajorAxis cfg = None
  \/ exists a P e : R,
       Config.semiMajorAxis cfg = Some (Finite a)
       /\ Config.orbitalPeriod cfg = Some (Finite P)
       /\ Config.eccentricity cfg = Some (Finite e)
       /\ P <> 0.

(** * Properties *)

(** ** Arithmetic on finite numbers *)

Lemma Rzero_0 : Rzero 0 = true.
Proof. unfold Rzero. destruct (Req_dec_T 0 0); [reflexivity | contradiction]. Qed.

Lemma Rzero_neq (r : R) : r <> 0 -> Rzero r = false.
Proof. intros H. unfold Rzero. destruct (Req_dec_T r 0); [contradiction | reflexivity]. Qed.

Lemma Rzero_true (r : R) : Rzero r = true -> r = 0.
Proof. unfold Rzero. destruct (Req_dec_T r 0); [trivial | discriminate]. Qed.

Lemma Rneg_nonneg (r : R) : 0 <= r -> Rneg r = false.
Proof. intros H. unfold Rneg. destruct (Rlt_dec r 0); [lra | reflexivity]. Qed.

Lemma Rneg_neg (r : R) : r < 0 -> Rneg r = true.
Proof. intros H. unfold Rneg. destruct (Rlt_dec r 0); [reflexivity | lra]. Qed.

Lemma div_Finite (p q : R) : q <> 0 -> (Finite p / Finite q)%js = Finite (p / q).
Proof. intros H. simpl. now rewrite Rzero_neq. Qed.

Lemma ToBoolean_nonzero (r : R) : r <> 0 -> ToBoolean (Some (Finite r)) = true.
Proof. intros H. simpl. now rewrite Rzero_neq. Qed.

Lemma ToBoolean_zero : ToBoolean (Some (Finite 0)) = false.
Proof. simpl. now rewrite Rzero_0. Qed.

Lemma add_zero_r (a : number) : (a + Finite 0)%js = a.
Proof. destruct a; simpl; trivial. now rewrite Rplus_0_r. Qed.

Lemma cos_full_turn (u : R) : cos (u + 2 * PI) = cos u.
Proof. rewrite cos_plus, cos_2PI, sin_2PI. ring. Qed.

Lemma sin_full_turn (u : R) : sin (u + 2 * PI) = sin u.
Proof. rewrite sin_plus, cos_2PI, sin_2PI. ring. Qed.

(** ** The loop of [setupOrbit] *)

Lemma for_loop_push {A : Type} (f : nat -> A) (count i : nat) (acc : list A) :
  for_loop count i (fun i pts => pts ++ [f i]) acc = acc ++ (f <$> seq i count).
Proof.
  revert i acc. induction count as [|count IH]; intros i acc; simpl.
  - now rewrite app_nil_r.
  - rewrite IH, <- app_assoc. reflexivity.
Qed.

(** ** What [update] keeps: the constants of the body and its orbit line *)

Module ScriptFacts.

Lemma constructor_constants (cfg : Config.t) :
  Script.semiMajorAxis (Script.constructor cfg) = Config.semiMajorAxis cfg
  /\ Script.orbitalPeriod (Script.constructor cfg) = Config.orbitalPeriod cfg
  /\ Script.eccentricity (Script.constructor cfg) = Config.eccentricity cfg.
Proof.
  unfold Script.constructor.
  destruct (ToBoolean (Config.semiMajorAxis cfg)); simpl; auto.
Qed.

Lemma constructor_start (cfg : Config.t) :
  Script.position (Script.constructor cfg) = origin
  /\ Script.currentTime (Script.constructor cfg) = Finite 0
  /\ Script.rotation_y (Script.constructor cfg) = Finite 0.
Proof.
  unfold Script.constructor.
  destruct (ToBoolean (Config.semiMajorAxis cfg)); simpl; auto.
Qed.

Lemma updates_constants (this : Script.CelestialBody) (deltaTimes : list number) :
  Script.semiMajorAxis (Script.updates this deltaTimes) = Script.semiMajorAxis this
  /\ Script.orbitalPeriod (Script.updates this deltaTimes) = Script.orbitalPeriod this
  /\ Script.eccentricity (Script.updates this deltaTimes) = Script.eccentricity this
  /\ Script.rotationSpeed (Script.updates this deltaTimes) = Script.rotationSpeed this
  /\ Script.orbitLine (Script.updates this deltaTimes) = Script.orbitLine this.
Proof.
  revert this. induction deltaTimes as [|d ds IH]; intros this.
  - simpl. auto.
  - change (Script.updates this (d :: ds))
      with (Script.updates (Script.update this d) ds).
    destruct (IH (Script.update this d)) as (-> & -> & -> & -> & ->).
    simpl. auto.
Qed.

(** Without a truthy [semiMajorAxis] the [if] of [update] is skipped. *)
Lemma update_falsy (this : Script.CelestialBody) (deltaTime : number) :
  ToBoolean (Script.semiMajorAxis this) = false ->
  Script.position (Script.update this deltaTime) = Script.position this.
Proof. intros H. unfold Script.update. simpl. now rewrite H. Qed.

Lemma updates_falsy (this : Script.CelestialBody) (deltaTimes : list number) :
  ToBoolean (Script.semiMajorAxis this) = false ->
  Script.position (Script.updates this deltaTimes) = Script.position this.
Proof.
  revert this. induction deltaTimes as [|d ds IH]; intros this H; [reflexivity|].
  change (Script.updates this (d :: ds))
    with (Script.updates (Script.update this d) ds).
  rewrite IH by exact H. now apply update_falsy.
Qed.

(** With a finite non-zero [semiMajorAxis] and a finite non-zero
    [orbitalPeriod], [update] writes the parametric point of the new time. *)
Lemma update_orbiting (this : Script.CelestialBody) (deltaTime : number) (a P e t : R) :
  Script.semiMajorAxis this = Some (Finite a) ->
  Script.orbitalPeriod this = Some (Finite P) ->
  Script.eccentricity this = Some (Finite e) ->
  a <> 0 -> P <> 0 ->
  Script.currentTime (Script.update this deltaTime) = Finite t ->
  Script.position (Script.update this deltaTime)
  = Vector3.new (Finite (a * cos (t / P * (2 * PI)))) (Finite 0)
                (Finite (a * sin (t / P * (2 * PI)) * (1 - e))).
Proof.
  intros Ha HP He Ha0 HP0 Ht. unfold Script.update in *. simpl in *.
  rewrite Ha, HP, He, Ht. rewrite ToBoolean_nonzero by exact Ha0.
  cbn [ToNumber]. rewrite div_Finite by exact HP0. simpl.
  replace (t / P * PI * 2) with (t / P * (2 * PI)) by ring.
  reflexivity.
Qed.

End ScriptFacts.

(** ** Orbital position *)

(** C1: for an orbiting body (semiMajorAxis [a] present, orbitalPeriod
    [P > 0], eccentricity [0 <= e < 1]) the position left by a call of
    [update], at the elapsed time [t >= 0] that call reaches, is
    [x = a * cos ((t / P) * 2π)], [y = 0], [z = a * sin ((t / P) * 2π) * (1 - e)]. *)
Theorem update_position_formula
  (cfg : Config.t) (a P e t : R) (deltaTimes : list number) (deltaTime : number) :
  Config.semiMajorAxis cfg = Some (Finite a) ->
  Config.orbitalPeriod cfg = Some (Finite P) ->
  Config.eccentricity cfg = Some (Finite e) ->
  0 < P -> 0 <= e < 1 -> 0 <= t ->
  let body := Script.update (Script.updates (Script.constructor cfg) deltaTimes) deltaTime in
  Script.currentTime body = Finite t ->
  Script.position body
  = Vector3.new (Finite (a * cos (t / P * (2 * PI)))) (Finite 0)
                (Finite (a * sin (t / P * (2 * PI)) * (1 - e))).
Proof.
  intros Ha HP He HP0 He01 Ht0 body Ht. subst body.
  destruct (ScriptFacts.constructor_constants cfg) as (Ca & CP & Ce).
  destruct (ScriptFacts.updates_constants (Script.constructor cfg) deltaTimes)
    as (Ua & UP & Ue & _).
  rewrite Ca, Ha in Ua. rewrite CP, HP in UP. rewrite Ce, He in Ue.
  destruct (Req_dec_T a 0) as [Hz | Hnz].
  - (* a zero semiMajorAxis is falsy: the position is still the initial one *)
    subst a.
    rewrite ScriptFacts.update_falsy by (rewrite Ua; exact ToBoolean_zero).
    rewrite ScriptFacts.updates_falsy
      by (rewrite Ca, Ha; exact ToBoolean_zero).
    destruct (ScriptFacts.constructor_start cfg) as (-> & _).
    unfold origin. f_equal; f_equal; ring.
  - apply ScriptFacts.update_orbiting; trivial. lra.
Qed.

Lemma update_position_formula_witness :
  Script.position (Script.update (Script.constructor Script.EARTH) (Finite 365.25))
  = Vector3.new (Finite (1 * cos (365.25 / 365.25 * (2 * PI)))) (Finite 0)
                (Finite (1 * sin (365.25 / 365.25 * (2 * PI)) * (1 - 0.017))).
Proof.
  apply (update_position_formula Script.EARTH 1 365.25 0.017 365.25 [] (Finite 365.25)).
  - reflexivity.
  - reflexivity.
  - reflexivity.
  - lra.
  - lra.
  - lra.
  - unfold Script.constructor, Script.EARTH, Script.planet. simpl.
    rewrite Rzero_neq by lra. simpl. f_equal. lra.
Defined.

(** X22, in exact arithmetic (finite numbers as reals, [Math.PI] as π): the
    position is periodic in the elapsed time with period [orbitalPeriod]:
    two calls of [update] that reach the times [t] and [t + P] leave the
    same position.  In doubles the two positions agree up to rounding only. *)
Theorem update_position_periodic
  (this : Script.CelestialBody) (a P e t : R) (deltaTime1 deltaTime2 : number) :
  Script.semiMajorAxis this = Some (Finite a) ->
  Script.orbitalPeriod this = Some (Finite P) ->
  Script.eccentricity this = Some (Finite e) ->
  0 < P -> 0 <= t ->
  Script.currentTime (Script.update this deltaTime1) = Finite t ->
  Script.currentTime (Script.update this deltaTime2) = Finite (t + P) ->
  Script.position (Script.update this deltaTime2)
  = Script.position (Script.update this deltaTime1).
Proof.
  intros Ha HP He HP0 Ht0 Ht1 Ht2.
  destruct (Req_dec_T a 0) as [Hz | Hnz].
  - subst a.
    rewrite !ScriptFacts.update_falsy by (rewrite Ha; exact ToBoolean_zero).
    reflexivity.
  - rewrite (ScriptFacts.update_orbiting this deltaTime1 a P e t) by (trivial; lra).
    rewrite (ScriptFacts.update_orbiting this deltaTime2 a P e (t + P))
      by (trivial; lra).
    replace ((t + P) / P * (2 * PI)) with (t / P * (2 * PI) + 2 * PI)
      by (field; lra).
    now rewrite cos_full_turn, sin_full_turn.
Qed.

Lemma update_position_periodic_witness :
  Script.position (Script.update (Script.constructor Script.MERCURY) (Finite 98))
  = Script.position (Script.update (Script.constructor Script.MERCURY) (Finite 10)).
Proof.
  destruct (ScriptFacts.constructor_constants Script.MERCURY) as (Ca & CP & Ce).
  apply (update_position_periodic (Script.constructor Script.MERCURY)
           0.387 88 0.206 10 (Finite 10) (Finite 98)).
  - exact Ca.
  - exact CP.
  - exact Ce.
  - lra.
  - lra.
  - unfold Script.constructor, Script.MERCURY, Script.planet. simpl.
    rewrite Rzero_neq by lra. simpl. f_equal. lra.
  - unfold Script.constructor, Script.MERCURY, Script.planet. simpl.
    rewrite Rzero_neq by lra. simpl. f_equal. lra.
Defined.

(** A body constructed without a semiMajorAxis never leaves the origin. *)
Lemma stationary_position (cfg : Config.t) (deltaTimes : list number) :
  Config.semiMajorAxis cfg = None ->
  Script.position (Script.updates (Script.constructor cfg) deltaTimes) = origin.
Proof.
  intros Habsent.
  destruct (ScriptFacts.constructor_constants cfg) as (Ca & _).
  rewrite ScriptFacts.updates_falsy by (rewrite Ca, Habsent; reflexivity).
  apply ScriptFacts.constructor_start.
Qed.

(** C3: a body constructed without a semiMajorAxis is at the origin after any
    finite sequence of calls of [update] with non-negative time steps. *)
Theorem stationary_body_stays_at_origin (cfg : Config.t) (deltaTimes : list number) :
  Config.semiMajorAxis cfg = None ->
  Forall nonnegative deltaTimes ->
  Script.position (Script.updates (Script.constructor cfg) deltaTimes) = origin.
Proof.
  intros Habsent _. now apply stationary_position.
Qed.

Lemma stationary_body_stays_at_origin_witness :
  Script.position
    (Script.updates (Script.constructor Script.SUN) [Finite 0.016; Finite 0; Finite 2])
  = origin.
Proof.
  apply (stationary_body_stays_at_origin Script.SUN [Finite 0.016; Finite 0; Finite 2]).
  - reflexivity.
  - repeat constructor; simpl; lra.
Defined.

(** ** A tick of zero length *)

(** Evaluation of arithmetic on closed finite numbers. *)
Ltac finite :=
  repeat (simpl;
          first [ rewrite Rzero_0
                | rewrite Rzero_neq by lra
                | rewrite Rneg_nonneg by lra
                | rewrite Rneg_neg by lra ]);
  simpl.

Lemma EARTH_rotationSpeed :
  Script.rotationSpeed (Script.constructor Script.EARTH)
  = Finite (2 * PI / (1 * 24 * 60 * 60 * 60)).
Proof.
  unfold Script.constructor, Script.EARTH, Script.planet. finite. reflexivity.
Qed.

(** C4, as stated, fails: on a freshly constructed Earth a call of [update]
    with [deltaTime = 0] moves the body from the origin to the start of its
    orbit and turns it by [rotationSpeed]. *)
Lemma zero_tick_changes_fresh_planet :
  let body := Script.constructor Script.EARTH in
  ~ (Script.currentTime (Script.update body (Finite 0)) = Script.currentTime body
     /\ Script.position (Script.update body (Finite 0)) = Script.position body
     /\ Script.rotation_y (Script.update body (Finite 0)) = Script.rotation_y body).
Proof.
  intros body (_ & _ & Hspin). subst body.
  unfold Script.update in Hspin. cbn [Script.rotation_y] in Hspin.
  rewrite EARTH_rotationSpeed in Hspin.
  destruct (ScriptFacts.constructor_start Script.EARTH) as (_ & _ & Hy).
  rewrite Hy in Hspin. simpl in Hspin. injection Hspin as Hspin.
  pose proof PI_RGT_0. lra.
Qed.

(** The position part fails there as well. *)
Lemma zero_tick_first_position :
  Script.position (Script.update (Script.constructor Script.EARTH) (Finite 0))
  = Vector3.new (Finite 1) (Finite 0) (Finite 0).
Proof.
  unfold Script.constructor, Script.EARTH, Script.planet, Script.update. finite.
  replace (0 + 0) with 0 by lra.
  replace (0 / 365.25 * PI * 2) with 0 by lra.
  rewrite cos_0, sin_0. f_equal; f_equal; lra.
Qed.

(** C4, amended: a call of [update] with [deltaTime = 0] keeps the elapsed
    time; it keeps the position of a body whose semiMajorAxis is absent or
    falsy, and of any body once an earlier call has placed it; the spin angle
    is not kept but advanced by [rotationSpeed], as on every call. *)
Theorem zero_tick (this : Script.CelestialBody) :
  Script.currentTime (Script.update this (Finite 0)) = Script.currentTime this
  /\ Script.rotation_y (Script.update this (Finite 0))
     = (Script.rotation_y this + Script.rotationSpeed this)%js
  /\ (ToBoolean (Script.semiMajorAxis this) = false ->
      Script.position (Script.update this (Finite 0)) = Script.position this)
  /\ (forall deltaTime : number,
        Script.position (Script.update (Script.update this deltaTime) (Finite 0))
        = Script.position (Script.update this deltaTime)).
Proof.
  repeat split.
  - apply add_zero_r.
  - intros H. now apply ScriptFacts.update_falsy.
  - intros deltaTime. unfold Script.update. simpl. rewrite add_zero_r.
    now destruct (ToBoolean (Script.semiMajorAxis this)).
Qed.

(** ** Rotation speed *)

(** C5, as stated, fails: for the Earth ([rotationPeriod = 1]) the speed is
    not [2π / (|1| * 86400)]. *)
Lemma rotationSpeed_not_86400 :
  Script.rotationSpeed (Script.constructor Script.EARTH)
  <> Finite (2 * PI / (Rabs 1 * 86400)).
Proof.
  rewrite EARTH_rotationSpeed, Rabs_R1. intros H. injection H as H.
  pose proof PI_RGT_0. lra.
Qed.

Lemma constructor_rotationSpeed (cfg : Config.t) :
  Script.rotationSpeed (Script.constructor cfg)
  = (if ToBoolean (Config.rotationPeriod cfg)
     then (Finite 2 * Math_PI
           / (ToNumber (Config.rotationPeriod cfg) * Finite 24 * Finite 60
              * Finite 60 * Finite 60))%js
     else Finite 0)
  /\ Part001.rotationSpeed (Part001.constructor cfg)
     = Script.rotationSpeed (Script.constructor cfg).
Proof.
  unfold Script.constructor, Part001.constructor.
  destruct (ToBoolean (Config.semiMajorAxis cfg)); simpl; auto.
Qed.

(** C5, amended: the rotation speed derived at construction is 0 when
    rotationPeriod is 0 and otherwise [2π / (|rotationPeriod| * C)] with the
    sign of rotationPeriod, where [C = 24 * 60 * 60 * 60 = 5184000]
    (86400 seconds a day at 60 frames a second); both variants of the class
    compute it alike and no call of [update] changes it. *)
Theorem rotationSpeed_conversion (cfg : Config.t) (rotationPeriod : R) :
  Config.rotationPeriod cfg = Some (Finite rotationPeriod) ->
  let speed := Script.rotationSpeed (Script.constructor cfg) in
  (rotationPeriod = 0 -> speed = Finite 0)
  /\ (0 < rotationPeriod ->
      speed = Finite (2 * PI / (Rabs rotationPeriod * 5184000)))
  /\ (rotationPeriod < 0 ->
      speed = Finite (- (2 * PI / (Rabs rotationPeriod * 5184000))))
  /\ Part001.rotationSpeed (Part001.constructor cfg) = speed
  /\ (forall deltaTimes : list number,
        Script.rotationSpeed (Script.updates (Script.constructor cfg) deltaTimes)
        = speed).
Proof.
  intros Hrp speed. subst speed.
  destruct (constructor_rotationSpeed cfg) as (Hs & Hp).
  rewrite Hrp in Hs. repeat split.
  - intros ->. rewrite Hs, ToBoolean_zero. reflexivity.
  - intros Hpos. rewrite Hs, ToBoolean_nonzero by lra. finite.
    f_equal. rewrite Rabs_pos_eq by lra. field. lra.
  - intros Hneg. rewrite Hs, ToBoolean_nonzero by lra. finite.
    f_equal. rewrite Rabs_left by lra. field. lra.
  - exact Hp.
  - intros deltaTimes.
    apply (ScriptFacts.updates_constants (Script.constructor cfg) deltaTimes).
Qed.

Lemma rotationSpeed_conversion_witness :
  Script.rotationSpeed (Script.constructor Script.VENUS)
  = Finite (- (2 * PI / (Rabs (-243) * 5184000))).
Proof.
  apply (rotationSpeed_conversion Script.VENUS (-243)).
  - reflexivity.
  - lra.
Defined.

(** ** An orbital period of zero *)

(** Dividing by a zero period leaves [NaN] or an infinity, and neither has a
    cosine or a sine. *)
Lemma progress_zero_period (c : number) :
  Math_cos (c / Finite 0 * Math_PI * Finite 2)%js = NaN
  /\ Math_sin (c / Finite 0 * Math_PI * Finite 2)%js = NaN.
Proof.
  assert (HPI : Rzero PI = false)
    by (apply Rzero_neq; pose proof PI_RGT_0; lra).
  assert (H2 : Rzero 2 = false) by (apply Rzero_neq; lra).
  destruct c as [ | s | r]; simpl; rewrite ?Rzero_0; simpl.
  - auto.
  - rewrite HPI. simpl. rewrite H2. simpl. auto.
  - destruct (Rzero r); simpl; [auto|].
    rewrite HPI. simpl. rewrite H2. simpl. auto.
Qed.

(** C6, as stated, fails: the constructor accepts a present semiMajorAxis with
    a zero orbitalPeriod, and the next call of [update] yields [NaN]. *)
Lemma zero_orbitalPeriod_not_rejected :
  Script.new_CelestialBody zeroPeriodConfig <> Throw ConfigurationError
  /\ Vector3.x (Script.position
                  (Script.update (Script.constructor zeroPeriodConfig) (Finite 1)))
     = NaN.
Proof.
  split; [discriminate|].
  unfold Script.constructor, zeroPeriodConfig, Script.update. finite.
  replace (0 + 1) with 1 by lra. finite.
  assert (HPI : Rzero PI = false)
    by (apply Rzero_neq; pose proof PI_RGT_0; lra).
  rewrite HPI. finite. reflexivity.
Qed.

(** C6, amended: constructing a body whose semiMajorAxis is present and whose
    orbitalPeriod is 0 succeeds, the zero being stored as it is; when the
    semiMajorAxis is finite and not zero, every later call of [update] sets
    the x and z of the position to [NaN]. *)
Theorem zero_orbitalPeriod_accepted (cfg : Config.t) (a : R) :
  Config.semiMajorAxis cfg = Some (Finite a) ->
  a <> 0 ->
  Config.orbitalPeriod cfg = Some (Finite 0) ->
  Script.new_CelestialBody cfg = Normal (Script.constructor cfg)
  /\ Script.orbitalPeriod (Script.constructor cfg) = Some (Finite 0)
  /\ (forall (deltaTimes : list number) (deltaTime : number),
        let body :=
          Script.update (Script.updates (Script.constructor cfg) deltaTimes) deltaTime in
        Vector3.x (Script.position body) = NaN
        /\ Vector3.z (Script.position body) = NaN).
Proof.
  intros Ha Ha0 HP.
  destruct (ScriptFacts.constructor_constants cfg) as (Ca & CP & _).
  repeat split.
  - now rewrite CP.
  - destruct (ScriptFacts.updates_constants (Script.constructor cfg) deltaTimes)
      as (Ua & UP & _).
    rewrite Ca, Ha in Ua. rewrite CP, HP in UP.
    unfold Script.update. cbn [Script.position].
    rewrite Ua, UP, ToBoolean_nonzero by exact Ha0. cbn [ToNumber Vector3.x].
    destruct (progress_zero_period
                (Script.currentTime (Script.updates (Script.constructor cfg) deltaTimes)
                 + deltaTime)%js) as (-> & _).
    reflexivity.
  - destruct (ScriptFacts.updates_constants (Script.constructor cfg) deltaTimes)
      as (Ua & UP & _).
    rewrite Ca, Ha in Ua. rewrite CP, HP in UP.
    unfold Script.update. cbn [Script.position].
    rewrite Ua, UP, ToBoolean_nonzero by exact Ha0. cbn [ToNumber Vector3.z].
    destruct (progress_zero_period
                (Script.currentTime (Script.updates (Script.constructor cfg) deltaTimes)
                 + deltaTime)%js) as (_ & ->).
    reflexivity.
Qed.

Lemma zero_orbitalPeriod_accepted_witness :
  Script.new_CelestialBody zeroPeriodConfig
  = Normal (Script.constructor zeroPeriodConfig).
Proof.
  apply (zero_orbitalPeriod_accepted zeroPeriodConfig 1).
  - reflexivity.
  - lra.
  - reflexivity.
Defined.

(** ** The catalog *)

(** The table has no entry under a name that is not one of its nine. *)
Lemma own_property_unknown (name : string) :
  name ∉ ["SUN"; "MERCURY"; "VENUS"; "EARTH"; "MARS"; "JUPITER"; "SATURN";
          "URANUS"; "NEPTUNE"]%string ->
  Script.lookup name = Normal None.
Proof.
  intros H. rewrite !not_elem_of_cons in H.
  destruct H as (? & ? & ? & ? & ? & ? & ? & ? & ? & _).
  unfold Script.lookup, Script.PLANETARY_DATA. f_equal.
  rewrite !lookup_insert_ne by congruence.
  apply lookup_empty.
Qed.

Lemma PLUTO_unknown :
  "PLUTO"%string ∉ ["SUN"; "MERCURY"; "VENUS"; "EARTH"; "MARS"; "JUPITER";
                    "SATURN"; "URANUS"; "NEPTUNE"]%string.
Proof.
  repeat (apply not_elem_of_cons; split; [discriminate|]).
  apply not_elem_of_nil.
Qed.

(** C7, as stated, fails: the member access for a name that is not in the
    catalog throws nothing. *)
Lemma get_PLUTO_not_thrown :
  Script.get "PLUTO" <> Throw NotFoundError.
Proof.
  unfold Script.get. rewrite (own_property_unknown "PLUTO" PLUTO_unknown).
  destruct (bool_decide ("PLUTO"%string ∈ Script.Object_prototype)); discriminate.
Qed.

(** C7, amended: for every name that is not one of the nine of the catalog,
    the member access raises no error; it gives [undefined], unless the name
    is one that every object inherits from [Object.prototype] ([toString],
    [constructor], ...), for which it gives the inherited member. *)
Theorem get_unknown_name (name : string) :
  name ∉ ["SUN"; "MERCURY"; "VENUS"; "EARTH"; "MARS"; "JUPITER"; "SATURN";
          "URANUS"; "NEPTUNE"]%string ->
  (forall e : Error, Script.get name <> Throw e)
  /\ (name ∉ Script.Object_prototype -> Script.get name = Normal Script.Undefined)
  /\ (name ∈ Script.Object_prototype ->
      Script.get name = Normal (Script.Inherited name)).
Proof.
  intros H. unfold Script.get. rewrite (own_property_unknown name H).
  destruct (bool_decide_reflect (name ∈ Script.Object_prototype)) as [Hin | Hout].
  - split; [discriminate|]. split; [contradiction | reflexivity].
  - split; [discriminate|]. split; [reflexivity | contradiction].
Qed.

Lemma get_unknown_name_witness : Script.get "PLUTO" = Normal Script.Undefined.
Proof.
  apply (get_unknown_name "PLUTO").
  - repeat (apply not_elem_of_cons; split; [discriminate|]).
    apply not_elem_of_nil.
  - unfold Script.Object_prototype.
    repeat (apply not_elem_of_cons; split; [discriminate|]).
    apply not_elem_of_nil.
Defined.

(** A name of [Object.prototype] reads as the inherited member. *)
Lemma get_toString : Script.get "toString" = Normal (Script.Inherited "toString").
Proof.
  unfold Script.get. rewrite own_property_unknown.
  - reflexivity.
  - repeat (apply not_elem_of_cons; split; [discriminate|]).
    apply not_elem_of_nil.
Qed.

(** ** The orbit path *)

Lemma INR_segments : INR Script.segments = 128.
Proof. unfold Script.segments. rewrite INR_IZR_INZ. reflexivity. Qed.

Lemma orbitPoint_finite (this : Script.CelestialBody) (a e : R) (i : nat) :
  Script.semiMajorAxis this = Some (Finite a) ->
  Script.eccentricity this = Some (Finite e) ->
  Script.orbitPoint this i
  = Vector3.new (Finite (a * cos (INR i / 128 * (2 * PI)))) (Finite 0)
                (Finite (a * sin (INR i / 128 * (2 * PI)) * (1 - e))).
Proof.
  intros Ha He. unfold Script.orbitPoint, of_nat. rewrite Ha, He, INR_segments.
  rewrite div_Finite by lra. simpl.
  replace (INR i / 128 * PI * 2) with (INR i / 128 * (2 * PI)) by ring.
  reflexivity.
Qed.

(** X24, in exact arithmetic (finite numbers as reals, [Math.PI] as π): the
    orbit line of an orbiting body has exactly 129 points, point [i] being
    the parametric point at the angle [(i / 128) * 2π]; its first and last
    points are the same; and it is the same after any calls of [update],
    whatever the elapsed time.  In doubles the last point misses the first
    by the sine of twice [Math.PI], about 2.4e-16 of the semiMajorAxis. *)
Theorem orbit_path_closed (cfg : Config.t) (a e : R) :
  Config.semiMajorAxis cfg = Some (Finite a) ->
  Config.eccentricity cfg = Some (Finite e) ->
  0 < a -> 0 <= e < 1 ->
  exists pts : list Vector3.t,
    Script.orbitLine (Script.constructor cfg) = Some pts
    /\ length pts = 129%nat
    /\ (forall i : nat, (i <= 128)%nat ->
          pts !! i
          = Some (Vector3.new (Finite (a * cos (INR i / 128 * (2 * PI)))) (Finite 0)
                              (Finite (a * sin (INR i / 128 * (2 * PI)) * (1 - e)))))
    /\ head pts = last pts
    /\ (forall deltaTimes : list number,
          Script.orbitLine (Script.updates (Script.constructor cfg) deltaTimes)
          = Some pts).
Proof.
  intros Ha He Ha0 He01.
  set (this := Script.mkBody (Config.orbitalPeriod cfg) (Config.semiMajorAxis cfg)
                 (Config.eccentricity cfg) (Finite 0)
                 (Script.rotationSpeed (Script.constructor cfg))
                 (Finite 0) origin None).
  set (pts := Script.orbitPoint this <$> seq 0 129).
  assert (Hline : Script.orbitLine (Script.constructor cfg) = Some pts).
  { unfold Script.constructor. rewrite Ha, ToBoolean_nonzero by lra.
    unfold Script.setupOrbit. cbn [Script.orbitLine]. f_equal.
    rewrite for_loop_push. simpl app. subst pts this.
    unfold Script.constructor. rewrite Ha, ToBoolean_nonzero by lra.
    reflexivity. }
  assert (Hpoint : forall i : nat, (i <= 128)%nat ->
            pts !! i
            = Some (Vector3.new (Finite (a * cos (INR i / 128 * (2 * PI)))) (Finite 0)
                       (Finite (a * sin (INR i / 128 * (2 * PI)) * (1 - e))))).
  { intros i Hi. subst pts. rewrite list_lookup_fmap, lookup_seq_lt by lia.
    simpl. f_equal. now apply orbitPoint_finite. }
  assert (Hlen : length pts = 129%nat).
  { subst pts. now rewrite length_fmap, length_seq. }
  exists pts. repeat split; trivial.
  - rewrite head_lookup, last_lookup, Hlen.
    change (Init.Nat.pred 129) with 128%nat.
    rewrite (Hpoint 0%nat), (Hpoint 128%nat) by lia.
    change (INR 0) with 0. replace (INR 128) with 128 by (symmetry; exact INR_segments).
    replace (128 / 128 * (2 * PI)) with (0 + 2 * PI) by lra.
    rewrite cos_full_turn, sin_full_turn.
    replace (0 / 128 * (2 * PI)) with 0 by lra.
    reflexivity.
  - intros deltaTimes. rewrite <- Hline.
    apply (ScriptFacts.updates_constants (Script.constructor cfg) deltaTimes).
Qed.

Lemma orbit_path_closed_witness :
  exists pts : list Vector3.t,
    Script.orbitLine (Script.constructor Script.EARTH) = Some pts
    /\ length pts = 129%nat
    /\ (forall i : nat, (i <= 128)%nat ->
          pts !! i
          = Some (Vector3.new (Finite (1 * cos (INR i / 128 * (2 * PI)))) (Finite 0)
                              (Finite (1 * sin (INR i / 128 * (2 * PI)) * (1 - 0.017)))))
    /\ head pts = last pts
    /\ (forall deltaTimes : list number,
          Script.orbitLine (Script.updates (Script.constructor Script.EARTH) deltaTimes)
          = Some pts).
Proof.
  apply (orbit_path_closed Script.EARTH 1 0.017).
  - reflexivity.
  - reflexivity.
  - lra.
  - lra.
Defined.

(** ** The two variants of the class *)

(** C9, as stated, fails: fed the same [deltaTime = 1], the two variants of
    [update] leave a fresh Earth at different elapsed times. *)
Lemma variants_differ_on_EARTH :
  let b1 := Script.update (Script.constructor Script.EARTH) (Finite 1) in
  let b2 := Part001.update (Part001.constructor Script.EARTH) (Finite 1) in
  ~ (Script.currentTime b1 = Part001.currentTime b2
     /\ Script.position b1 = Part001.position b2).
Proof.
  intros b1 b2 (Htime & _). subst b1 b2.
  unfold Script.update, Part001.update, Script.constructor, Part001.constructor,
    Script.EARTH, Script.planet in Htime.
  revert Htime. finite. intros Htime. injection Htime as Htime. lra.
Qed.

Lemma constructor_agree (cfg : Config.t) :
  agree (Script.constructor cfg) (Part001.constructor cfg).
Proof.
  unfold agree, Script.constructor, Part001.constructor.
  destruct (ToBoolean (Config.semiMajorAxis cfg)); simpl; repeat split.
Qed.

Lemma update_agree (b1 : Script.CelestialBody) (b2 : Part001.CelestialBody)
  (deltaTime : number) :
  agree b1 b2 ->
  agree (Script.update b1 (deltaTime * Finite 20)%js) (Part001.update b2 deltaTime).
Proof.
  intros (HP & Ha & He & Ht & Hs & Hy & Hpos & Hline).
  unfold agree, Script.update, Part001.update. simpl.
  rewrite HP, Ha, He, Ht, Hs, Hy, Hpos, Hline. repeat split.
Qed.

Lemma updates_agree (deltaTimes : list number) :
  forall (b1 : Script.CelestialBody) (b2 : Part001.CelestialBody),
    agree b1 b2 ->
    agree (Script.updates b1 (map (fun d => (d * Finite 20)%js) deltaTimes))
          (Part001.updates b2 deltaTimes).
Proof.
  induction deltaTimes as [|d ds IH]; intros b1 b2 H; [exact H|].
  simpl. apply IH. now apply update_agree.
Qed.

(** C9, amended: each call of [update] advances the elapsed time by
    [deltaTime] in src/script.js and by [deltaTime * 20] in part_001, where
    [deltaTime] is the clock delta times [timeScale] in both; for identical
    constants the body of part_001 after a sequence of time steps has the
    elapsed time, the position, the spin and the orbit line of the body of
    src/script.js after the same steps each multiplied by 20. *)
Theorem variants_agree_up_to_speed (cfg : Config.t) (deltaTimes : list number) :
  agree (Script.updates (Script.constructor cfg)
           (map (fun d => (d * Finite 20)%js) deltaTimes))
        (Part001.updates (Part001.constructor cfg) deltaTimes)
  /\ (forall (scene : Script.SolarSystemScene) (getDelta : number),
        map Script.currentTime (Script.celestialBodies (Script.animate scene getDelta))
        = map (fun body =>
                 (Script.currentTime body + getDelta * Script.timeScale scene)%js)
              (Script.celestialBodies scene))
  /\ (forall (scene : Part001.SolarSystemScene) (getDelta : number),
        map Part001.currentTime
            (Part001.celestialBodies (Part001.animate scene getDelta))
        = map (fun body =>
                 (Part001.currentTime body
                  + getDelta * Part001.timeScale scene * Finite 20)%js)
              (Part001.celestialBodies scene)).
Proof.
  split; [|split].
  - apply updates_agree, constructor_agree.
  - intros scene getDelta. unfold Script.animate. simpl.
    rewrite map_map. reflexivity.
  - intros scene getDelta. unfold Part001.animate. simpl.
    rewrite map_map. reflexivity.
Qed.

(** ** A semiMajorAxis of zero *)

Lemma updates_clock (deltaTimes : list number) :
  forall b b' : Script.CelestialBody,
    Script.currentTime b = Script.currentTime b' ->
    Script.rotation_y b = Script.rotation_y b' ->
    Script.rotationSpeed b = Script.rotationSpeed b' ->
    Script.currentTime (Script.updates b deltaTimes)
    = Script.currentTime (Script.updates b' deltaTimes)
    /\ Script.rotation_y (Script.updates b deltaTimes)
       = Script.rotation_y (Script.updates b' deltaTimes).
Proof.
  induction deltaTimes as [|d ds IH]; intros b b' Ht Hy Hs; [now split|].
  simpl. apply IH; simpl; congruence.
Qed.

(** C10: a body constructed with a semiMajorAxis of 0 gets no orbit line and
    is at the origin after any calls of [update]; position, orbit line,
    elapsed time and spin are those of the body constructed from the same
    object without the semiMajorAxis. *)
Theorem zero_semiMajorAxis_is_stationary (cfg : Config.t) :
  Config.semiMajorAxis cfg = Some (Finite 0) ->
  Script.orbitLine (Script.constructor cfg) = None
  /\ (forall deltaTimes : list number,
        let body := Script.updates (Script.constructor cfg) deltaTimes in
        let body' :=
          Script.updates (Script.constructor (Config.without_semiMajorAxis cfg))
                         deltaTimes in
        Script.position body = origin
        /\ Script.orbitLine body = None
        /\ Script.position body = Script.position body'
        /\ Script.orbitLine body = Script.orbitLine body'
        /\ Script.currentTime body = Script.currentTime body'
        /\ Script.rotation_y body = Script.rotation_y body').
Proof.
  intros Hzero.
  assert (Hline : Script.orbitLine (Script.constructor cfg) = None).
  { unfold Script.constructor. rewrite Hzero, ToBoolean_zero. reflexivity. }
  assert (Hsame : Script.currentTime (Script.constructor cfg)
                  = Script.currentTime
                      (Script.constructor (Config.without_semiMajorAxis cfg))
                  /\ Script.rotation_y (Script.constructor cfg)
                     = Script.rotation_y
                         (Script.constructor (Config.without_semiMajorAxis cfg))
                  /\ Script.rotationSpeed (Script.constructor cfg)
                     = Script.rotationSpeed
                         (Script.constructor (Config.without_semiMajorAxis cfg))).
  { unfold Script.constructor. rewrite Hzero, ToBoolean_zero. simpl. auto. }
  destruct Hsame as (Ht & Hy & Hs).
  split; [exact Hline|]. intros deltaTimes body body'. subst body body'.
  destruct (ScriptFacts.constructor_constants cfg) as (Ca & _).
  destruct (ScriptFacts.constructor_start cfg) as (Hpos & _).
  destruct (ScriptFacts.updates_constants (Script.constructor cfg) deltaTimes)
    as (_ & _ & _ & _ & Uline).
  assert (Hposition :
            Script.position (Script.updates (Script.constructor cfg) deltaTimes)
            = origin).
  { rewrite ScriptFacts.updates_falsy
      by (rewrite Ca, Hzero; exact ToBoolean_zero).
    exact Hpos. }
  destruct (updates_clock deltaTimes _ _ Ht Hy Hs) as (Htime & Hspin).
  repeat split; trivial.
  - now rewrite Uline.
  - rewrite Hposition. symmetry.
    now apply stationary_position.
  - rewrite Uline, Hline. symmetry.
    destruct (ScriptFacts.updates_constants
                (Script.constructor (Config.without_semiMajorAxis cfg)) deltaTimes)
      as (_ & _ & _ & _ & ->).
    reflexivity.
Qed.

Lemma zero_semiMajorAxis_is_stationary_witness :
  Script.orbitLine
    (Script.constructor
       (Config.new (Some (Finite 1)) (Some (Finite 1)) (Some (Finite 0))
                   (Some (Finite 0)) (Some (Finite 0)) (Some (Finite 1)) None false))
  = None.
Proof.
  apply (zero_semiMajorAxis_is_stationary
           (Config.new (Some (Finite 1)) (Some (Finite 1)) (Some (Finite 0))
                       (Some (Finite 0)) (Some (Finite 0)) (Some (Finite 1)) None false)).
  reflexivity.
Defined.

(** * Further properties of the code *)

(** ** Elapsed time and spin over many calls of [update] *)

Lemma Rzero_false (r : R) : Rzero r = false -> r <> 0.
Proof. unfold Rzero. destruct (Req_dec_T r 0); [discriminate | trivial]. Qed.

Lemma updates_snoc (this : Script.CelestialBody) (ds : list number) (d : number) :
  Script.updates this (ds ++ [d]) = Script.update (Script.updates this ds) d.
Proof. unfold Script.updates. now rewrite fold_left_app. Qed.

Lemma currentTime_updates (ds : list R) :
  forall (this : Script.CelestialBody) (t : R),
    Script.currentTime this = Finite t ->
    Script.currentTime (Script.updates this (map Finite ds)) = Finite (t + Rsum ds).
Proof.
  induction ds as [|d ds IH]; intros this t Ht; simpl.
  - rewrite Ht. f_equal. lra.
  - rewrite (IH (Script.update this (Finite d)) (t + d)).
    + f_equal. lra.
    + simpl. now rewrite Ht.
Qed.

Lemma currentTime_updates_20 (ds : list R) :
  forall (this : Part001.CelestialBody) (t : R),
    Part001.currentTime this = Finite t ->
    Part001.currentTime (Part001.updates this (map Finite ds))
    = Finite (t + 20 * Rsum ds).
Proof.
  induction ds as [|d ds IH]; intros this t Ht; simpl.
  - rewrite Ht. f_equal. lra.
  - rewrite (IH (Part001.update this (Finite d)) (t + d * 20)).
    + f_equal. lra.
    + simpl. now rewrite Ht.
Qed.

(** X1, in exact arithmetic (finite numbers as reals: no rounding, no
    overflow): after calls of [update] with finite time steps, the elapsed
    time of a body is the sum of the steps in src/script.js and twenty times
    that sum in part_001. *)
Theorem elapsed_time_is_sum (cfg : Config.t) (ds : list R) :
  Script.currentTime (Script.updates (Script.constructor cfg) (map Finite ds))
  = Finite (Rsum ds)
  /\ Part001.currentTime (Part001.updates (Part001.constructor cfg) (map Finite ds))
     = Finite (20 * Rsum ds).
Proof.
  split.
  - rewrite (currentTime_updates ds _ 0)
      by apply ScriptFacts.constructor_start.
    f_equal. lra.
  - rewrite (currentTime_updates_20 ds _ 0)
      by (destruct (constructor_agree cfg) as (_ & _ & _ & <- & _);
          apply ScriptFacts.constructor_start).
    f_equal. lra.
Qed.

(** Whatever the rotationPeriod, the speed the constructor derives is a
    finite number. *)
Lemma rotationSpeed_finite (cfg : Config.t) :
  exists s : R, Script.rotationSpeed (Script.constructor cfg) = Finite s.
Proof.
  destruct (constructor_rotationSpeed cfg) as (-> & _).
  assert (H24 : Rzero 24 = false) by (apply Rzero_neq; lra).
  assert (H60 : Rzero 60 = false) by (apply Rzero_neq; lra).
  destruct (Config.rotationPeriod cfg) as [[ | s | r] | ]; simpl.
  - eauto.
  - rewrite H24. simpl. rewrite H60. simpl. rewrite H60. simpl.
    rewrite H60. simpl. eauto.
  - destruct (Rzero r) eqn:Hr; simpl; [eauto|].
    apply Rzero_false in Hr. rewrite Rzero_neq by lra. eauto.
  - eauto.
Qed.

Lemma rotation_y_updates (dts : list number) :
  forall (this : Script.CelestialBody) (y s : R),
    Script.rotation_y this = Finite y ->
    Script.rotationSpeed this = Finite s ->
    Script.rotation_y (Script.updates this dts)
    = Finite (y + INR (length dts) * s).
Proof.
  induction dts as [|d dts IH]; intros this y s Hy Hs.
  - simpl. rewrite Hy. f_equal. lra.
  - change (Script.updates this (d :: dts))
      with (Script.updates (Script.update this d) dts).
    rewrite (IH (Script.update this d) (y + s) s).
    + f_equal. change (length (d :: dts)) with (S (length dts)).
      rewrite S_INR. lra.
    + simpl. now rewrite Hy, Hs.
    + exact Hs.
Qed.

(** X2: the spin angle counts calls, not time: for every configuration the
    rotation speed [s] is a finite number and, after [n] calls of [update]
    with any arguments at all, [rotation.y] is [n * s]. *)
Theorem spin_counts_calls (cfg : Config.t) (deltaTimes : list number) :
  exists s : R,
    Script.rotationSpeed (Script.constructor cfg) = Finite s
    /\ Script.rotation_y (Script.updates (Script.constructor cfg) deltaTimes)
       = Finite (INR (length deltaTimes) * s).
Proof.
  destruct (rotationSpeed_finite cfg) as (s & Hs). exists s. split; [exact Hs|].
  rewrite (rotation_y_updates deltaTimes _ 0 s); trivial.
  - f_equal. lra.
  - apply ScriptFacts.constructor_start.
Qed.

(** X3, in exact arithmetic (finite numbers as reals: no rounding, no
    overflow): a body with a positive rotationPeriod turns forward at every
    call of [update] and one with a negative rotationPeriod turns backward. *)
Theorem spin_direction
  (cfg : Config.t) (rotationPeriod : R) (deltaTimes : list number) (deltaTime : number) :
  Config.rotationPeriod cfg = Some (Finite rotationPeriod) ->
  rotationPeriod <> 0 ->
  exists y y' : R,
    Script.rotation_y (Script.updates (Script.constructor cfg) deltaTimes) = Finite y
    /\ Script.rotation_y
         (Script.update (Script.updates (Script.constructor cfg) deltaTimes) deltaTime)
       = Finite y'
    /\ (0 < rotationPeriod -> y < y')
    /\ (rotationPeriod < 0 -> y' < y).
Proof.
  intros Hrp Hnz.
  set (s := 2 * PI / (rotationPeriod * 24 * 60 * 60 * 60)).
  assert (Hs : Script.rotationSpeed (Script.constructor cfg) = Finite s).
  { destruct (constructor_rotationSpeed cfg) as (-> & _).
    rewrite Hrp, ToBoolean_nonzero by exact Hnz. simpl.
    now rewrite Rzero_neq by lra. }
  destruct (ScriptFacts.constructor_start cfg) as (_ & _ & Hy0).
  exists (0 + INR (length deltaTimes) * s),
         (0 + INR (length (deltaTimes ++ [deltaTime])) * s).
  split; [now apply rotation_y_updates|].
  split; [rewrite <- updates_snoc; now apply rotation_y_updates|].
  rewrite length_app, plus_INR. simpl. pose proof PI_RGT_0 as HPI.
  split; intros Hsign.
  - assert (0 < s) by (apply Rdiv_lt_0_compat; lra). lra.
  - assert (0 < - s).
    { unfold s. replace (- (2 * PI / (rotationPeriod * 24 * 60 * 60 * 60)))
        with (2 * PI / (- rotationPeriod * 24 * 60 * 60 * 60)) by (field; lra).
      apply Rdiv_lt_0_compat; lra. }
    lra.
Qed.

Lemma spin_direction_witness :
  exists y y' : R,
    Script.rotation_y (Script.updates (Script.constructor Script.VENUS) []) = Finite y
    /\ Script.rotation_y
         (Script.update (Script.updates (Script.constructor Script.VENUS) []) (Finite 1))
       = Finite y'
    /\ (0 < -243 -> y < y')
    /\ (-243 < 0 -> y' < y).
Proof.
  apply (spin_direction Script.VENUS (-243) [] (Finite 1)).
  - reflexivity.
  - lra.
Defined.

(** X4, in exact arithmetic (finite numbers as reals: no rounding, no
    overflow): the orbit does not depend on how time is cut into frames, the
    spin does: from a body with a finite elapsed time, one call of [update] with
    [d1 + d2] and two calls with [d1] and then [d2] leave the same elapsed
    time and the same position, but the two calls turn the body by one more
    [rotationSpeed]. *)
Theorem update_split (this : Script.CelestialBody) (t d1 d2 : R) :
  Script.currentTime this = Finite t ->
  let once := Script.update this (Finite (d1 + d2)) in
  let twice := Script.update (Script.update this (Finite d1)) (Finite d2) in
  Script.currentTime twice = Script.currentTime once
  /\ Script.position twice = Script.position once
  /\ Script.rotation_y twice
     = (Script.rotation_y once + Script.rotationSpeed this)%js.
Proof.
  intros Ht once twice. subst once twice. unfold Script.update. simpl.
  rewrite Ht. simpl. replace (t + d1 + d2) with (t + (d1 + d2)) by lra.
  repeat split. now destruct (ToBoolean (Script.semiMajorAxis this)).
Qed.

Lemma update_split_witness :
  Script.position
    (Script.update (Script.update (Script.constructor Script.MARS) (Finite 3)) (Finite 4))
  = Script.position (Script.update (Script.constructor Script.MARS) (Finite (3 + 4))).
Proof.
  apply (update_split (Script.constructor Script.MARS) 0 3 4).
  apply ScriptFacts.constructor_start.
Defined.

(** ** The shape of the orbit *)

(** X5: the position written by [update] lies on the ellipse with half-axes
    [a] along x and [a * (1 - e)] along z, inside the box they span; with an
    eccentricity of 0 it lies on the circle of radius [a]. *)
Theorem position_on_ellipse
  (this : Script.CelestialBody) (a P e t : R) (deltaTime : number) :
  Script.semiMajorAxis this = Some (Finite a) ->
  Script.orbitalPeriod this = Some (Finite P) ->
  Script.eccentricity this = Some (Finite e) ->
  a <> 0 -> P <> 0 ->
  Script.currentTime (Script.update this deltaTime) = Finite t ->
  exists x z : R,
    Script.position (Script.update this deltaTime)
    = Vector3.new (Finite x) (Finite 0) (Finite z)
    /\ (1 - e) ^ 2 * x ^ 2 + z ^ 2 = a ^ 2 * (1 - e) ^ 2
    /\ (e = 0 -> x ^ 2 + z ^ 2 = a ^ 2)
    /\ Rabs x <= Rabs a
    /\ Rabs z <= Rabs a * Rabs (1 - e).
Proof.
  intros Ha HP He Ha0 HP0 Ht.
  set (u := t / P * (2 * PI)).
  exists (a * cos u), (a * sin u * (1 - e)).
  split; [now apply ScriptFacts.update_orbiting|].
  pose proof (sin2_cos2 u) as Hsc. unfold Rsqr in Hsc.
  destruct (COS_bound u) as (Hc1 & Hc2). destruct (SIN_bound u) as (Hs1 & Hs2).
  assert (Hcos : Rabs (cos u) <= 1) by (apply Rabs_le; lra).
  assert (Hsin : Rabs (sin u) <= 1) by (apply Rabs_le; lra).
  pose proof (Rabs_pos a) as Hpa. pose proof (Rabs_pos (1 - e)) as Hpe.
  repeat split.
  - replace ((1 - e) ^ 2 * (a * cos u) ^ 2 + (a * sin u * (1 - e)) ^ 2)
      with (a ^ 2 * (1 - e) ^ 2 * (sin u * sin u + cos u * cos u)) by ring.
    rewrite Hsc. ring.
  - intros ->.
    replace ((a * cos u) ^ 2 + (a * sin u * (1 - 0)) ^ 2)
      with (a ^ 2 * (sin u * sin u + cos u * cos u)) by ring.
    rewrite Hsc. ring.
  - rewrite Rabs_mult. nra.
  - rewrite !Rabs_mult.
    assert (Rabs a * Rabs (1 - e) * Rabs (sin u) <= Rabs a * Rabs (1 - e) * 1)
      by (apply Rmult_le_compat_l; [nra | exact Hsin]).
    lra.
Qed.

Lemma position_on_ellipse_witness :
  exists x z : R,
    Script.position (Script.update (Script.constructor Script.EARTH) (Finite 100))
    = Vector3.new (Finite x) (Finite 0) (Finite z)
    /\ (1 - 0.017) ^ 2 * x ^ 2 + z ^ 2 = 1 ^ 2 * (1 - 0.017) ^ 2
    /\ (0.017 = 0 -> x ^ 2 + z ^ 2 = 1 ^ 2)
    /\ Rabs x <= Rabs 1
    /\ Rabs z <= Rabs 1 * Rabs (1 - 0.017).
Proof.
  destruct (ScriptFacts.constructor_constants Script.EARTH) as (Ca & CP & Ce).
  apply (position_on_ellipse (Script.constructor Script.EARTH)
           1 365.25 0.017 (0 + 100) (Finite 100)).
  - exact Ca.
  - exact CP.
  - exact Ce.
  - lra.
  - lra.
  - unfold Script.update. cbn [Script.currentTime].
    destruct (ScriptFacts.constructor_start Script.EARTH) as (_ & -> & _).
    reflexivity.
Defined.

(** The position after at least one call of [update], for a configuration
    whose orbit is defined. *)
Lemma position_finite (cfg : Config.t) (ds : list R) :
  orbit_defined cfg ->
  finite_vector
    (Script.position (Script.updates (Script.constructor cfg) (map Finite ds))).
Proof.
  intros Hdef.
  assert (Horigin : finite_vector origin) by (repeat split).
  destruct (ScriptFacts.constructor_constants cfg) as (Ca & CP & Ce).
  destruct Hdef as [Habsent | (a & P & e & Ha & HP & He & HP0)].
  - rewrite ScriptFacts.updates_falsy by (rewrite Ca, Habsent; reflexivity).
    destruct (ScriptFacts.constructor_start cfg) as (-> & _). exact Horigin.
  - destruct (Req_dec_T a 0) as [-> | Ha0].
    + rewrite ScriptFacts.updates_falsy by (rewrite Ca, Ha; exact ToBoolean_zero).
      destruct (ScriptFacts.constructor_start cfg) as (-> & _). exact Horigin.
    + destruct ds as [|d0 ds0] using rev_ind.
      * simpl. destruct (ScriptFacts.constructor_start cfg) as (-> & _).
        exact Horigin.
      * rewrite map_app. simpl map. rewrite updates_snoc.
        destruct (ScriptFacts.updates_constants (Script.constructor cfg)
                    (map Finite ds0)) as (Ua & UP & Ue & _).
        rewrite Ca, Ha in Ua. rewrite CP, HP in UP. rewrite Ce, He in Ue.
        rewrite (ScriptFacts.update_orbiting _ _ a P e (Rsum ds0 + d0));
          [unfold finite_vector; simpl; auto | trivial ..].
        unfold Script.update. cbn [Script.currentTime].
        rewrite (currentTime_updates ds0 _ 0)
          by apply ScriptFacts.constructor_start.
        simpl. f_equal. lra.
Qed.

Lemma finite_body (cfg : Config.t) (ds : list R) :
  orbit_defined cfg ->
  is_finite (Script.currentTime
               (Script.updates (Script.constructor cfg) (map Finite ds)))
  /\ finite_vector
       (Script.position (Script.updates (Script.constructor cfg) (map Finite ds)))
  /\ is_finite (Script.rotation_y
                  (Script.updates (Script.constructor cfg) (map Finite ds))).
Proof.
  intros Hdef. split; [|split].
  - rewrite (currentTime_updates ds _ 0) by apply ScriptFacts.constructor_start.
    exact I.
  - now apply position_finite.
  - destruct (rotationSpeed_finite cfg) as (s & Hs).
    rewrite (rotation_y_updates _ _ 0 s); trivial.
    + exact I.
    + apply ScriptFacts.constructor_start.
Qed.

(** X6: no [NaN] and no infinity ever shows up in a body whose orbit is
    defined (no semiMajorAxis, or finite constants with a non-zero
    orbitalPeriod): after any finite time steps its elapsed time, its
    position and its spin angle are finite numbers. *)
Theorem finite_steps_keep_body_finite (cfg : Config.t) (ds : list R) :
  orbit_defined cfg ->
  let body := Script.updates (Script.constructor cfg) (map Finite ds) in
  is_finite (Script.currentTime body)
  /\ finite_vector (Script.position body)
  /\ is_finite (Script.rotation_y body).
Proof. intros Hdef body. subst body. now apply finite_body. Qed.

Lemma finite_steps_keep_body_finite_witness :
  is_finite (Script.currentTime
               (Script.updates (Script.constructor Script.SATURN)
                               (map Finite [0.016; 0.017]))).
Proof.
  apply (finite_steps_keep_body_finite Script.SATURN [0.016; 0.017]).
  right. exists 9.537, 10759, 0.054. repeat split; lra.
Defined.

(** ** The orbit line and the motion along it *)

(** The points of the line, for a semiMajorAxis that is finite and not zero. *)
Lemma constructor_orbitLine (cfg : Config.t) (a e : R) :
  Config.semiMajorAxis cfg = Some (Finite a) ->
  Config.eccentricity cfg = Some (Finite e) ->
  a <> 0 ->
  exists pts : list Vector3.t,
    Script.orbitLine (Script.constructor cfg) = Some pts
    /\ forall i : nat, (i <= 128)%nat ->
         pts !! i
         = Some (Vector3.new (Finite (a * cos (INR i / 128 * (2 * PI)))) (Finite 0)
                             (Finite (a * sin (INR i / 128 * (2 * PI)) * (1 - e)))).
Proof.
  intros Ha He Ha0.
  assert (Htruthy : ToBoolean (Config.semiMajorAxis cfg) = true)
    by (rewrite Ha; now apply ToBoolean_nonzero).
  unfold Script.constructor. rewrite Htruthy.
  unfold Script.setupOrbit. cbn [Script.orbitLine].
  rewrite for_loop_push.
  eexists. split; [reflexivity|].
  intros i Hi. rewrite app_nil_l, list_lookup_fmap.
  rewrite lookup_seq_lt by (unfold Script.segments; lia).
  cbn [fmap option_fmap option_map Nat.add]. f_equal.
  apply orbitPoint_finite; assumption.
Qed.

(** X23: the orbit line of a body with a finite non-zero semiMajorAxis has
    exactly 129 points, point [i] being
    [(a cos θ, 0, a sin θ (1 - e))] at [θ = i / 128 * Math.PI * 2], and no
    call of [update] changes it. *)
Theorem orbit_line_points
  (cfg : Config.t) (a e : R) (deltaTimes : list number) :
  Config.semiMajorAxis cfg = Some (Finite a) ->
  Config.eccentricity cfg = Some (Finite e) ->
  a <> 0 ->
  exists pts : list Vector3.t,
    Script.orbitLine (Script.updates (Script.constructor cfg) deltaTimes) = Some pts
    /\ length pts = 129%nat
    /\ forall i : nat, (i <= 128)%nat ->
         pts !! i
         = Some (Vector3.new (Finite (a * cos (INR i / 128 * PI * 2))) (Finite 0)
                             (Finite (a * sin (INR i / 128 * PI * 2) * (1 - e)))).
Proof.
  intros Ha He Ha0.
  destruct (constructor_orbitLine cfg a e Ha He Ha0) as (pts & Hline & Hpts).
  destruct (ScriptFacts.updates_constants (Script.constructor cfg) deltaTimes)
    as (_ & _ & _ & _ & Uline).
  exists pts. split; [now rewrite Uline|]. split.
  - assert (Htruthy : ToBoolean (Config.semiMajorAxis cfg) = true)
      by (rewrite Ha; now apply ToBoolean_nonzero).
    revert Hline. unfold Script.constructor. rewrite Htruthy.
    unfold Script.setupOrbit. cbn [Script.orbitLine]. rewrite for_loop_push.
    rewrite app_nil_l. intros Hline.
    assert (Hpts' : pts = Script.orbitPoint
                            (Script.mkBody (Config.orbitalPeriod cfg)
                               (Config.semiMajorAxis cfg) (Config.eccentricity cfg)
                               (Finite 0)
                               (Script.rotationSpeed (Script.constructor cfg))
                               (Finite 0) origin None)
                          <$> seq 0 (Script.segments + 1)).
    { unfold Script.constructor at 1. rewrite Htruthy. cbn [Script.rotationSpeed
        Script.setupOrbit]. congruence. }
    rewrite Hpts', length_fmap, length_seq. reflexivity.
  - intros i Hi. rewrite (Hpts i Hi).
    replace (INR i / 128 * PI * 2) with (INR i / 128 * (2 * PI)) by ring.
    reflexivity.
Qed.

Lemma orbit_line_points_witness :
  exists pts : list Vector3.t,
    Script.orbitLine (Script.updates (Script.constructor Script.MARS) [Finite 1])
    = Some pts
    /\ length pts = 129%nat
    /\ forall i : nat, (i <= 128)%nat ->
         pts !! i
         = Some (Vector3.new (Finite (1.524 * cos (INR i / 128 * PI * 2))) (Finite 0)
                             (Finite (1.524 * sin (INR i / 128 * PI * 2)
                                      * (1 - 0.093)))).
Proof.
  apply (orbit_line_points Script.MARS 1.524 0.093 [Finite 1]).
  - reflexivity.
  - reflexivity.
  - lra.
Defined.

(** X7: the body moves along the line drawn for it: when a call of [update]
    reaches the elapsed time [i / 128] of the orbitalPeriod, the body is at
    point [i] of its orbit line. *)
Theorem body_on_orbit_line
  (cfg : Config.t) (a P e : R) (deltaTimes : list number) (deltaTime : number)
  (i : nat) :
  Config.semiMajorAxis cfg = Some (Finite a) ->
  Config.orbitalPeriod cfg = Some (Finite P) ->
  Config.eccentricity cfg = Some (Finite e) ->
  a <> 0 -> P <> 0 -> (i <= 128)%nat ->
  let body :=
    Script.update (Script.updates (Script.constructor cfg) deltaTimes) deltaTime in
  Script.currentTime body = Finite (INR i / 128 * P) ->
  exists pts : list Vector3.t,
    Script.orbitLine body = Some pts /\ pts !! i = Some (Script.position body).
Proof.
  intros Ha HP He Ha0 HP0 Hi body Ht. subst body.
  destruct (constructor_orbitLine cfg a e Ha He Ha0) as (pts & Hline & Hpts).
  destruct (ScriptFacts.constructor_constants cfg) as (Ca & CP & Ce).
  destruct (ScriptFacts.updates_constants (Script.constructor cfg) deltaTimes)
    as (Ua & UP & Ue & _ & Uline).
  rewrite Ca, Ha in Ua. rewrite CP, HP in UP. rewrite Ce, He in Ue.
  exists pts. split.
  - unfold Script.update. cbn [Script.orbitLine]. now rewrite Uline.
  - rewrite (ScriptFacts.update_orbiting _ _ a P e (INR i / 128 * P)); trivial.
    rewrite (Hpts i Hi).
    replace (INR i / 128 * P / P * (2 * PI)) with (INR i / 128 * (2 * PI))
      by (field; exact HP0).
    reflexivity.
Qed.

Lemma body_on_orbit_line_witness :
  exists pts : list Vector3.t,
    Script.orbitLine (Script.update (Script.constructor Script.MERCURY) (Finite 22))
    = Some pts
    /\ pts !! 32%nat
       = Some (Script.position
                 (Script.update (Script.constructor Script.MERCURY) (Finite 22))).
Proof.
  apply (body_on_orbit_line Script.MERCURY 0.387 88 0.206 [] (Finite 22) 32).
  - reflexivity.
  - reflexivity.
  - reflexivity.
  - lra.
  - lra.
  - repeat constructor.
  - unfold Script.update. cbn [Script.currentTime Script.updates fold_left].
    destruct (ScriptFacts.constructor_start Script.MERCURY) as (_ & -> & _).
    cbn [add]. f_equal. rewrite INR_IZR_INZ.
    change (Z.of_nat 32) with 32%Z. lra.
Defined.





(** ** The scene *)

Lemma mul_one_r (a : number) : (a * Finite 1)%js = a.
Proof.
  destruct a as [ | s | r]; simpl; trivial.
  - rewrite Rzero_neq, Rneg_nonneg by lra. now rewrite xorb_false_r.
  - now rewrite Rmult_1_r.
Qed.

Lemma frames_bodies (getDeltas : list number) :
  forall scene : Script.SolarSystemScene,
    Script.celestialBodies (Script.frames scene getDeltas)
    = map (fun body =>
             Script.updates body
               (map (fun d => (d * Script.timeScale scene)%js) getDeltas))
          (Script.celestialBodies scene)
    /\ Script.timeScale (Script.frames scene getDeltas) = Script.timeScale scene.
Proof.
  induction getDeltas as [|d ds IH]; intros scene.
  - simpl. split; [|reflexivity]. now rewrite map_id.
  - change (Script.frames scene (d :: ds))
      with (Script.frames (Script.animate scene d) ds).
    destruct (IH (Script.animate scene d)) as (-> & ->).
    split; [|reflexivity]. unfold Script.animate. simpl. now rewrite map_map.
Qed.

(** X10: frames act on each body by itself: after any frames the scene holds
    the same bodies in the same order, each one updated with the clock deltas
    multiplied by [timeScale], and [timeScale] is unchanged. *)
Theorem frames_update_each_body
  (scene : Script.SolarSystemScene) (getDeltas : list number) :
  Script.celestialBodies (Script.frames scene getDeltas)
  = map (fun body =>
           Script.updates body
             (map (fun d => (d * Script.timeScale scene)%js) getDeltas))
        (Script.celestialBodies scene)
  /\ Script.timeScale (Script.frames scene getDeltas) = Script.timeScale scene.
Proof. apply frames_bodies. Qed.

Lemma addCelestialBody_fold (cfgs : list Config.t) :
  forall scene : Script.SolarSystemScene,
    Script.celestialBodies (fold_left Script.addCelestialBody cfgs scene)
    = Script.celestialBodies scene ++ map Script.constructor cfgs
    /\ Script.timeScale (fold_left Script.addCelestialBody cfgs scene)
       = Script.timeScale scene.
Proof.
  induction cfgs as [|cfg cfgs IH]; intros scene; simpl.
  - now rewrite app_nil_r.
  - destruct (IH (Script.addCelestialBody scene cfg)) as (-> & ->).
    simpl. now rewrite <- app_assoc.
Qed.

Lemma built_scene_bodies (cfgs : list Config.t) (getDeltas : list number) :
  Script.celestialBodies
    (Script.frames
       (fold_left Script.addCelestialBody cfgs Script.new_SolarSystemScene)
       getDeltas)
  = map (fun cfg => Script.updates (Script.constructor cfg) getDeltas) cfgs.
Proof.
  destruct (frames_bodies getDeltas
              (fold_left Script.addCelestialBody cfgs Script.new_SolarSystemScene))
    as (-> & _).
  destruct (addCelestialBody_fold cfgs Script.new_SolarSystemScene) as (-> & ->).
  simpl. rewrite map_map. apply map_ext. intros cfg. f_equal.
  rewrite <- (map_id getDeltas) at 2. apply map_ext. intros d. apply mul_one_r.
Qed.

(** X11: a scene built from a new [SolarSystemScene] by adding bodies and
    then animated holds, in the order of insertion, the body of each
    configuration updated with the raw clock deltas (the time scale of a new
    scene is 1). *)
Theorem built_scene_after_frames (cfgs : list Config.t) (getDeltas : list number) :
  Script.celestialBodies
    (Script.frames
       (fold_left Script.addCelestialBody cfgs Script.new_SolarSystemScene)
       getDeltas)
  = map (fun cfg => Script.updates (Script.constructor cfg) getDeltas) cfgs.
Proof. apply built_scene_bodies. Qed.

(** What the table holds for each of its names. *)
Lemma PLANETARY_DATA_entries (name : string) (cfg : Config.t) :
  Script.PLANETARY_DATA !! name = Some cfg ->
  In cfg [Script.SUN; Script.MERCURY; Script.VENUS; Script.EARTH; Script.MARS;
          Script.JUPITER; Script.SATURN; Script.URANUS; Script.NEPTUNE].
Proof.
  unfold Script.PLANETARY_DATA. intros H.
  repeat (apply lookup_insert_Some in H;
          destruct H as [(_ & <-) | (_ & H)]; [simpl; tauto|]).
  now rewrite lookup_empty in H.
Qed.

Lemma planet_valid (a e P rot tilt km : R) :
  0 < a -> 0 < P -> 0 <= e < 1 -> rot <> 0 ->
  let cfg := Script.planet a e P rot tilt km in
  (exists rotationPeriod : R,
      Config.rotationPeriod cfg = Some (Finite rotationPeriod)
      /\ rotationPeriod <> 0)
  /\ ((Config.semiMajorAxis cfg = None /\ Config.orbitalPeriod cfg = None)
      \/ exists a' P' e' : R,
          Config.semiMajorAxis cfg = Some (Finite a')
          /\ Config.orbitalPeriod cfg = Some (Finite P')
          /\ Config.eccentricity cfg = Some (Finite e')
          /\ 0 < a' /\ 0 < P' /\ 0 <= e' < 1).
Proof.
  intros Ha HP He Hrot cfg. split.
  - exists rot. now split.
  - right. exists a, P, e. repeat split; trivial; apply He.
Qed.

(** X12: every entry that a member access finds in [PLANETARY_DATA] has a
    finite non-zero rotationPeriod and either no orbit at all (no
    semiMajorAxis and no orbitalPeriod) or a positive semiMajorAxis, a
    positive orbitalPeriod and an eccentricity in [0, 1). *)
Theorem catalog_entries_valid (name : string) (cfg : Config.t) :
  Script.lookup name = Normal (Some cfg) ->
  (exists rotationPeriod : R,
      Config.rotationPeriod cfg = Some (Finite rotationPeriod)
      /\ rotationPeriod <> 0)
  /\ ((Config.semiMajorAxis cfg = None /\ Config.orbitalPeriod cfg = None)
      \/ exists a P e : R,
          Config.semiMajorAxis cfg = Some (Finite a)
          /\ Config.orbitalPeriod cfg = Some (Finite P)
          /\ Config.eccentricity cfg = Some (Finite e)
          /\ 0 < a /\ 0 < P /\ 0 <= e < 1).
Proof.
  unfold Script.lookup. intros H. injection H as H.
  apply PLANETARY_DATA_entries in H. simpl in H.
  destruct H as [<- | H].
  { split; [exists 27; split; [reflexivity | lra] | left; now split]. }
  repeat (destruct H as [<- | H]; [apply planet_valid; lra | ]).
  contradiction.
Qed.

Lemma catalog_entries_valid_witness :
  (exists rotationPeriod : R,
      Config.rotationPeriod Script.VENUS = Some (Finite rotationPeriod)
      /\ rotationPeriod <> 0)
  /\ ((Config.semiMajorAxis Script.VENUS = None
       /\ Config.orbitalPeriod Script.VENUS = None)
      \/ exists a P e : R,
          Config.semiMajorAxis Script.VENUS = Some (Finite a)
          /\ Config.orbitalPeriod Script.VENUS = Some (Finite P)
          /\ Config.eccentricity Script.VENUS = Some (Finite e)
          /\ 0 < a /\ 0 < P /\ 0 <= e < 1).
Proof.
  apply (catalog_entries_valid "VENUS" Script.VENUS).
  reflexivity.
Defined.

Lemma planet_orbit_defined (a e P rot tilt km : R) :
  P <> 0 -> orbit_defined (Script.planet a e P rot tilt km).
Proof. intros HP. right. exists a, P, e. now repeat split. Qed.

(** X13: the scene the script builds holds nine bodies at every frame; for
    finite clock deltas every one of them has a finite elapsed time, a finite
    position and a finite spin angle, and the first one, the sun, is at the
    origin. *)
Theorem solarSystem_stays_finite (getDeltas : list R) :
  let bodies :=
    Script.celestialBodies (Script.frames Script.solarSystem (map Finite getDeltas)) in
  length bodies = 9%nat
  /\ Forall (fun body =>
               is_finite (Script.currentTime body)
               /\ finite_vector (Script.position body)
               /\ is_finite (Script.rotation_y body)) bodies
  /\ Script.position <$> head bodies = Some origin.
Proof.
  intros bodies. subst bodies. unfold Script.solarSystem.
  rewrite built_scene_bodies.
  split; [reflexivity|]. split.
  - apply Forall_map.
    assert (Hsun : orbit_defined Script.SUN) by (now left).
    repeat (apply Forall_cons; split;
            [ first [ apply finite_body, Hsun
                    | apply finite_body, planet_orbit_defined; lra ] | ]).
    apply Forall_nil_2.
  - simpl. f_equal. now apply stationary_position.
Qed.

(** ** The shader uniforms of part_001 *)

Lemma Rsum_snoc (ds : list R) (d : R) : Rsum (ds ++ [d]) = Rsum ds + d.
Proof. induction ds as [|d0 ds IH]; simpl; [|rewrite IH]; lra. Qed.

Lemma uniforms_presence (deltaTimes : list number) :
  forall this : Part001.CelestialBody,
    (Part001.material_time (Part001.updates this deltaTimes) = None
     <-> Part001.material_time this = None)
    /\ (Part001.glow_time (Part001.updates this deltaTimes) = None
        <-> Part001.glow_time this = None).
Proof.
  induction deltaTimes as [|d ds IH]; intros this; [now split|].
  change (Part001.updates this (d :: ds))
    with (Part001.updates (Part001.update this d) ds).
  destruct (IH (Part001.update this d)) as (-> & ->). simpl.
  destruct (Part001.material_time this), (Part001.glow_time this);
    split; split; intros; congruence.
Qed.

Lemma constructor_uniforms (cfg : Config.t) :
  Part001.material_time (Part001.constructor cfg)
  = (if Config.isSun cfg then Some (Finite 0) else None)
  /\ Part001.glow_time (Part001.constructor cfg)
     = (if Config.isSun cfg then Some (Finite 0) else None).
Proof.
  unfold Part001.constructor.
  destruct (ToBoolean (Config.semiMajorAxis cfg)); simpl; auto.
Qed.

(** X14, in exact arithmetic (finite numbers as reals: no rounding, no
    overflow): in part_001 a body constructed with [isSun] carries two [time]
    uniforms, and after finite time steps the uniform of the material is
    twice the sum of the steps and the uniform of the glow is that sum; a
    body constructed without [isSun] never has either uniform. *)
Theorem shader_time_uniforms (cfg : Config.t) (ds : list R) :
  let body := Part001.updates (Part001.constructor cfg) (map Finite ds) in
  if Config.isSun cfg
  then Part001.material_time body = Some (Finite (2 * Rsum ds))
       /\ Part001.glow_time body = Some (Finite (Rsum ds))
  else Part001.material_time body = None /\ Part001.glow_time body = None.
Proof.
  intros body. subst body.
  destruct (constructor_uniforms cfg) as (Hm & Hg).
  destruct (Config.isSun cfg).
  - destruct ds as [|d ds _] using rev_ind.
    + simpl. rewrite Hm, Hg. split; do 2 f_equal; lra.
    + rewrite map_app. simpl map. unfold Part001.updates at 1 2.
      rewrite !fold_left_app. simpl fold_left.
      fold (Part001.updates (Part001.constructor cfg) (map Finite ds)).
      destruct (uniforms_presence (map Finite ds) (Part001.constructor cfg))
        as (Pm & Pg).
      unfold Part001.update. cbn [Part001.material_time Part001.glow_time].
      rewrite (currentTime_updates_20 ds _ 0)
        by (destruct (constructor_agree cfg) as (_ & _ & _ & <- & _);
            apply ScriptFacts.constructor_start).
      rewrite Rsum_snoc.
      destruct (Part001.material_time
                  (Part001.updates (Part001.constructor cfg) (map Finite ds)))
        as [m|]; [|rewrite (proj1 Pm eq_refl) in Hm; discriminate].
      destruct (Part001.glow_time
                  (Part001.updates (Part001.constructor cfg) (map Finite ds)))
        as [g|]; [|rewrite (proj1 Pg eq_refl) in Hg; discriminate].
      simpl. rewrite !Rzero_neq by lra. split; do 2 f_equal; lra.
  - destruct (uniforms_presence (map Finite ds) (Part001.constructor cfg))
      as (Pm & Pg).
    split; [now apply Pm | now apply Pg].
Qed.

(** ** The orbit in part_001 *)

Lemma script_position_after_update
  (cfg : Config.t) (a P e t : R) (deltaTimes : list number) (deltaTime : number) :
  Config.semiMajorAxis cfg = Some (Finite a) ->
  Config.orbitalPeriod cfg = Some (Finite P) ->
  Config.eccentricity cfg = Some (Finite e) ->
  P <> 0 ->
  Script.currentTime
    (Script.update (Script.updates (Script.constructor cfg) deltaTimes) deltaTime)
  = Finite t ->
  Script.position
    (Script.update (Script.updates (Script.constructor cfg) deltaTimes) deltaTime)
  = Vector3.new (Finite (a * cos (t / P * (2 * PI)))) (Finite 0)
                (Finite (a * sin (t / P * (2 * PI)) * (1 - e))).
Proof.
  intros Ha HP He HP0 Ht.
  destruct (ScriptFacts.constructor_constants cfg) as (Ca & CP & Ce).
  destruct (ScriptFacts.updates_constants (Script.constructor cfg) deltaTimes)
    as (Ua & UP & Ue & _).
  rewrite Ca, Ha in Ua. rewrite CP, HP in UP. rewrite Ce, He in Ue.
  destruct (Req_dec_T a 0) as [Hz | Hnz].
  - subst a.
    rewrite ScriptFacts.update_falsy by (rewrite Ua; exact ToBoolean_zero).
    rewrite ScriptFacts.updates_falsy by (rewrite Ca, Ha; exact ToBoolean_zero).
    destruct (ScriptFacts.constructor_start cfg) as (-> & _).
    unfold origin. f_equal; f_equal; ring.
  - now apply ScriptFacts.update_orbiting.
Qed.

(** X15: the [update] of part_001 places the body by the same formula as the
    one of src/script.js: for finite constants with a non-zero orbitalPeriod,
    the position it leaves at the elapsed time [t] it reaches is
    [(a cos (t / P * 2π), 0, a sin (t / P * 2π) (1 - e))]. *)
Theorem part001_position_formula
  (cfg : Config.t) (a P e t : R) (deltaTimes : list number) (deltaTime : number) :
  Config.semiMajorAxis cfg = Some (Finite a) ->
  Config.orbitalPeriod cfg = Some (Finite P) ->
  Config.eccentricity cfg = Some (Finite e) ->
  P <> 0 ->
  let body :=
    Part001.update (Part001.updates (Part001.constructor cfg) deltaTimes) deltaTime in
  Part001.currentTime body = Finite t ->
  Part001.position body
  = Vector3.new (Finite (a * cos (t / P * (2 * PI)))) (Finite 0)
                (Finite (a * sin (t / P * (2 * PI)) * (1 - e))).
Proof.
  intros Ha HP He HP0 body Ht. subst body.
  pose proof (update_agree _ _ deltaTime
                (updates_agree deltaTimes _ _ (constructor_agree cfg)))
    as (_ & _ & _ & Htime & _ & _ & Hpos & _).
  rewrite <- Hpos. rewrite <- Htime in Ht.
  now apply script_position_after_update.
Qed.

Lemma part001_position_formula_witness :
  Part001.position (Part001.update (Part001.constructor Script.EARTH) (Finite 2))
  = Vector3.new (Finite (1 * cos (40 / 365.25 * (2 * PI)))) (Finite 0)
                (Finite (1 * sin (40 / 365.25 * (2 * PI)) * (1 - 0.017))).
Proof.
  apply (part001_position_formula Script.EARTH 1 365.25 0.017 40 [] (Finite 2)).
  - reflexivity.
  - reflexivity.
  - reflexivity.
  - lra.
  - unfold Part001.update. cbn [Part001.currentTime Part001.updates fold_left].
    destruct (constructor_agree Script.EARTH) as (_ & _ & _ & <- & _).
    destruct (ScriptFacts.constructor_start Script.EARTH) as (_ & -> & _).
    simpl. f_equal. lra.
Defined.

(** ** The single-planet page of part_000 *)

Lemma frames_rotation (n : nat) :
  forall (m : Part000.Meshes) (e l c g : R),
    Part000.earthMesh m = Finite e -> Part000.lightsMesh m = Finite l ->
    Part000.cloundsMesh m = Finite c -> Part000.glowMesh m = Finite g ->
    Part000.earthMesh (Part000.frames n m) = Finite (e + INR n * 0.01)
    /\ Part000.lightsMesh (Part000.frames n m) = Finite (l + INR n * 0.01)
    /\ Part000.cloundsMesh (Part000.frames n m) = Finite (c + INR n * 0.012)
    /\ Part000.glowMesh (Part000.frames n m) = Finite (g + INR n * 0.01).
Proof.
  induction n as [|n IH]; intros m e l c g He Hl Hc Hg.
  - simpl. rewrite He, Hl, Hc, Hg. repeat split; f_equal; lra.
  - change (Part000.frames (S n) m) with (Part000.frames n (Part000.animate m)).
    destruct (IH (Part000.animate m) (e + 0.01) (l + 0.01) (c + 0.012) (g + 0.01))
      as (-> & -> & -> & ->);
      try (unfold Part000.animate; simpl; rewrite ?He, ?Hl, ?Hc, ?Hg; reflexivity).
    rewrite S_INR. repeat split; f_equal; lra.
Qed.

(** X16: on the single-planet page the surface, the night lights and the glow
    turn in lock-step, by 0.01 radian a frame, and the clouds run ahead of
    them by 0.002 radian a frame: after [n] frames the three are at
    [n * 0.01] and the clouds at [n * 0.01 + n * 0.002]. *)
Theorem earth_layers_after_frames (n : nat) :
  let m := Part000.frames n Part000.start in
  Part000.earthMesh m = Finite (INR n * 0.01)
  /\ Part000.lightsMesh m = Part000.earthMesh m
  /\ Part000.glowMesh m = Part000.earthMesh m
  /\ Part000.cloundsMesh m = Finite (INR n * 0.01 + INR n * 0.002).
Proof.
  intros m. subst m.
  destruct (frames_rotation n Part000.start 0 0 0 0)
    as (-> & -> & -> & ->); try reflexivity.
  repeat split; f_equal; lra.
Qed.

(** ** The two tables *)

Lemma planet_same (a e P rot tilt km : R) :
  Part001.planet a e P rot tilt km = Script.planet a e P rot tilt km.
Proof.
  unfold Part001.planet, Script.planet, Part001.ORBIT_SCALE_FACTOR. simpl.
  now rewrite Rmult_1_r.
Qed.

(** X17: the table of part_001 has the entries of the table of src/script.js:
    every planet has the very same entry, and the sun has the same constants
    of motion and a different radius only. *)
Theorem tables_agree (name : string) :
  (name <> "SUN"%string ->
   Part001.PLANETARY_DATA !! name = Script.PLANETARY_DATA !! name)
  /\ Config.kinematics <$> Part001.PLANETARY_DATA !! name
     = Config.kinematics <$> Script.PLANETARY_DATA !! name
  /\ Config.radius Part001.SUN <> Config.radius Script.SUN.
Proof.
  unfold Part001.PLANETARY_DATA, Script.PLANETARY_DATA,
    Part001.MERCURY, Part001.VENUS, Part001.EARTH, Part001.MARS, Part001.JUPITER,
    Part001.SATURN, Part001.URANUS, Part001.NEPTUNE.
  rewrite !planet_same.
  fold Script.MERCURY Script.VENUS Script.EARTH Script.MARS Script.JUPITER
    Script.SATURN Script.URANUS Script.NEPTUNE.
  split; [|split].
  - intros Hname. now rewrite !(lookup_insert_ne _ "SUN"%string) by congruence.
  - destruct (decide (name = "SUN"%string)) as [-> | Hname].
    + rewrite !lookup_insert_eq. reflexivity.
    + now rewrite !(lookup_insert_ne _ "SUN"%string) by congruence.
  - unfold Part001.SUN, Script.SUN, Part001.SUN_SCALE_FACTOR, Script.SCALE_FACTOR.
    simpl. rewrite !Rzero_neq by lra. simpl. intros H. injection H as H. lra.
Qed.

(** ** Bodies that do not orbit or do not turn, and missing constants *)

(** X18: in part_001 as well, a body whose semiMajorAxis is absent, zero or
    [NaN] gets no orbit line and is at the origin after any calls of
    [update]. *)
Theorem part001_stationary (cfg : Config.t) (deltaTimes : list number) :
  ToBoolean (Config.semiMajorAxis cfg) = false ->
  Part001.position (Part001.updates (Part001.constructor cfg) deltaTimes) = origin
  /\ Part001.orbitLine (Part001.updates (Part001.constructor cfg) deltaTimes) = None.
Proof.
  intros Hfalsy.
  destruct (updates_agree deltaTimes _ _ (constructor_agree cfg))
    as (_ & _ & _ & _ & _ & _ & <- & <-).
  destruct (ScriptFacts.constructor_constants cfg) as (Ca & _).
  split.
  - rewrite ScriptFacts.updates_falsy by (now rewrite Ca).
    apply ScriptFacts.constructor_start.
  - destruct (ScriptFacts.updates_constants (Script.constructor cfg)
                (map (fun d => (d * Finite 20)%js) deltaTimes))
      as (_ & _ & _ & _ & ->).
    unfold Script.constructor. now rewrite Hfalsy.
Qed.

Lemma part001_stationary_witness :
  Part001.position
    (Part001.updates (Part001.constructor (Config.with_isSun Part001.SUN))
                     [Finite 0.016; Finite 0.017])
  = origin.
Proof.
  apply (part001_stationary (Config.with_isSun Part001.SUN)
           [Finite 0.016; Finite 0.017]).
  reflexivity.
Defined.

(** X19: a body whose rotationPeriod is absent, zero or [NaN] never turns. *)
Theorem no_rotationPeriod_no_spin (cfg : Config.t) (deltaTimes : list number) :
  ToBoolean (Config.rotationPeriod cfg) = false ->
  Script.rotation_y (Script.updates (Script.constructor cfg) deltaTimes) = Finite 0.
Proof.
  intros Hfalsy.
  rewrite (rotation_y_updates deltaTimes _ 0 0).
  - f_equal. lra.
  - apply ScriptFacts.constructor_start.
  - destruct (constructor_rotationSpeed cfg) as (-> & _). now rewrite Hfalsy.
Qed.

Lemma no_rotationPeriod_no_spin_witness :
  Script.rotation_y
    (Script.updates (Script.constructor (Config.new None None None None None None None false))
                    [Finite 1; Finite 2])
  = Finite 0.
Proof.
  apply (no_rotationPeriod_no_spin
           (Config.new None None None None None None None false)
           [Finite 1; Finite 2]).
  reflexivity.
Defined.

Lemma mul_NaN_r (a : number) : (a * NaN)%js = NaN.
Proof. now destruct a. Qed.

(** X20: a configuration with a semiMajorAxis but no eccentricity is
    accepted, and the missing constant surfaces as [NaN] in z only: the
    orbit line has its 129 points, each with z [NaN], and [update] writes the
    x of the formula and a z of [NaN]. *)
Theorem missing_eccentricity
  (cfg : Config.t) (a P t : R) (deltaTimes : list number) (deltaTime : number) :
  Config.semiMajorAxis cfg = Some (Finite a) ->
  Config.orbitalPeriod cfg = Some (Finite P) ->
  Config.eccentricity cfg = None ->
  a <> 0 -> P <> 0 ->
  let body :=
    Script.update (Script.updates (Script.constructor cfg) deltaTimes) deltaTime in
  Script.currentTime body = Finite t ->
  Script.position body
  = Vector3.new (Finite (a * cos (t / P * (2 * PI)))) (Finite 0) NaN
  /\ exists pts : list Vector3.t,
      Script.orbitLine body = Some pts
      /\ length pts = 129%nat
      /\ Forall (fun p => Vector3.z p = NaN) pts.
Proof.
  intros Ha HP He Ha0 HP0 body Ht. subst body.
  destruct (ScriptFacts.constructor_constants cfg) as (Ca & CP & Ce).
  destruct (ScriptFacts.updates_constants (Script.constructor cfg) deltaTimes)
    as (Ua & UP & Ue & _ & Uline).
  rewrite Ca, Ha in Ua. rewrite CP, HP in UP. rewrite Ce, He in Ue.
  split.
  - unfold Script.update in *. cbn [Script.currentTime Script.position] in *.
    rewrite Ua, UP, Ue, Ht, ToBoolean_nonzero by exact Ha0.
    cbn [ToNumber]. rewrite div_Finite by exact HP0. simpl.
    replace (t / P * PI * 2) with (t / P * (2 * PI)) by ring.
    reflexivity.
  - unfold Script.update. cbn [Script.orbitLine]. rewrite Uline.
    assert (Htruthy : ToBoolean (Config.semiMajorAxis cfg) = true)
      by (rewrite Ha; now apply ToBoolean_nonzero).
    unfold Script.constructor. rewrite Htruthy.
    unfold Script.setupOrbit. cbn [Script.orbitLine].
    rewrite for_loop_push. eexists. split; [reflexivity|].
    rewrite app_nil_l. split.
    + now rewrite length_fmap, length_seq.
    + apply Forall_fmap, Forall_forall. intros i _.
      unfold compose, Script.orbitPoint. cbn [Vector3.z Script.eccentricity].
      rewrite He. cbn [ToNumber sub]. apply mul_NaN_r.
Qed.

Lemma missing_eccentricity_witness :
  Script.position
    (Script.update
       (Script.constructor
          (Config.new None None None (Some (Finite 1)) None (Some (Finite 4)) None false))
       (Finite 1))
  = Vector3.new (Finite (1 * cos (1 / 4 * (2 * PI)))) (Finite 0) NaN.
Proof.
  apply (missing_eccentricity
           (Config.new None None None (Some (Finite 1)) None (Some (Finite 4)) None false)
           1 4 1 [] (Finite 1)).
  - reflexivity.
  - reflexivity.
  - reflexivity.
  - lra.
  - lra.
  - unfold Script.constructor, Script.update. simpl.
    rewrite Rzero_neq by lra. simpl. f_equal. lra.
Defined.

(** ** The two programs side by side *)

Lemma constructor_agree_kinematics (cfg1 cfg2 : Config.t) :
  Config.kinematics cfg1 = Config.kinematics cfg2 ->
  agree (Script.constructor cfg1) (Part001.constructor cfg2).
Proof.
  unfold Config.kinematics. intros H. injection H as Hr _ Ha He HP.
  unfold agree, Script.constructor, Part001.constructor.
  rewrite Hr, Ha, He, HP.
  destruct (ToBoolean (Config.semiMajorAxis cfg2)); simpl; repeat split.
Qed.

Lemma part001_frames_bodies (getDeltas : list number) :
  forall scene : Part001.SolarSystemScene,
    Part001.celestialBodies (Part001.frames scene getDeltas)
    = map (fun body =>
             Part001.updates body
               (map (fun d => (d * Part001.timeScale scene)%js) getDeltas))
          (Part001.celestialBodies scene)
    /\ Part001.timeScale (Part001.frames scene getDeltas) = Part001.timeScale scene.
Proof.
  induction getDeltas as [|d ds IH]; intros scene.
  - simpl. split; [|reflexivity]. now rewrite map_id.
  - change (Part001.frames scene (d :: ds))
      with (Part001.frames (Part001.animate scene d) ds).
    destruct (IH (Part001.animate scene d)) as (-> & ->).
    split; [|reflexivity]. unfold Part001.animate. simpl. now rewrite map_map.
Qed.

Lemma part001_addCelestialBody_fold (cfgs : list Config.t) :
  forall scene : Part001.SolarSystemScene,
    Part001.celestialBodies (fold_left Part001.addCelestialBody cfgs scene)
    = Part001.celestialBodies scene ++ map Part001.constructor cfgs
    /\ Part001.timeScale (fold_left Part001.addCelestialBody cfgs scene)
       = Part001.timeScale scene.
Proof.
  induction cfgs as [|cfg cfgs IH]; intros scene; simpl.
  - now rewrite app_nil_r.
  - destruct (IH (Part001.addCelestialBody scene cfg)) as (-> & ->).
    simpl. now rewrite <- app_assoc.
Qed.

(** X21: two scenes, one of each program, built from configurations with the
    same constants of motion, stay body by body in agreement when the scene
    of src/script.js is animated with clock deltas twenty times those of
    part_001: same elapsed times, positions, spin angles and orbit lines. *)
Theorem scenes_agree (cfgs1 cfgs2 : list Config.t) (getDeltas : list number) :
  Forall2 (fun cfg1 cfg2 => Config.kinematics cfg1 = Config.kinematics cfg2)
          cfgs1 cfgs2 ->
  Forall2 agree
    (Script.celestialBodies
       (Script.frames
          (fold_left Script.addCelestialBody cfgs1 Script.new_SolarSystemScene)
          (map (fun d => (d * Finite 20)%js) getDeltas)))
    (Part001.celestialBodies
       (Part001.frames
          (fold_left Part001.addCelestialBody cfgs2 Part001.new_SolarSystemScene)
          getDeltas)).
Proof.
  intros Hcfgs. rewrite built_scene_bodies.
  destruct (part001_frames_bodies getDeltas
              (fold_left Part001.addCelestialBody cfgs2 Part001.new_SolarSystemScene))
    as (-> & _).
  destruct (part001_addCelestialBody_fold cfgs2 Part001.new_SolarSystemScene)
    as (-> & ->).
  simpl. rewrite map_map.
  induction Hcfgs as [|cfg1 cfg2 cfgs1 cfgs2 Hkin _ IH]; simpl; constructor.
  - replace (map (fun d => (d * Finite 1)%js) getDeltas) with getDeltas.
    + now apply updates_agree, constructor_agree_kinematics.
    + rewrite <- (map_id getDeltas) at 1. apply map_ext. intros d.
      symmetry. apply mul_one_r.
  - exact IH.
Qed.

Lemma scenes_agree_witness :
  Forall2 agree
    (Script.celestialBodies
       (Script.frames Script.solarSystem
          (map (fun d => (d * Finite 20)%js) [Finite 0.016; Finite 0.017])))
    (Part001.celestialBodies
       (Part001.frames Part001.solarSystem [Finite 0.016; Finite 0.017])).
Proof.
  apply (scenes_agree
           [Script.SUN; Script.MERCURY; Script.VENUS; Script.EARTH; Script.MARS;
            Script.JUPITER; Script.SATURN; Script.URANUS; Script.NEPTUNE]
           [Config.with_isSun Part001.SUN; Part001.MERCURY; Part001.VENUS;
            Part001.EARTH; Part001.MARS; Part001.JUPITER; Part001.SATURN;
            Part001.URANUS; Part001.NEPTUNE]
           [Finite 0.016; Finite 0.017]).
  unfold Part001.MERCURY, Part001.VENUS, Part001.EARTH, Part001.MARS,
    Part001.JUPITER, Part001.SATURN, Part001.URANUS, Part001.NEPTUNE.
  rewrite !planet_same.
  repeat (constructor; [reflexivity|]). constructor.
Defined.
